(** * Meshtastic Serial Bridge Manager: a shallow embedding of meshbridge.py

    The development follows the source file top-down: Python string
    helpers, the effect monad used for methods that mutate [self] and call
    external tools, [Bridge] (start / _start_mdns / stop / is_running),
    [query_meshtastic_info], [find_serial_devices],
    [get_next_available_port], and the branches of [main] that act on the
    list of bridges. *)

From Stdlib Require Import ZArith NArith QArith String Ascii List Bool Lia.
From Stdlib Require Import HexadecimalString.
From stdpp Require Import base decidable option list gmap sets strings.
From Equations Require Import Equations.
From Stdlib Require DecimalString.

Open Scope Z_scope.
Open Scope string_scope.

(** ** Python values *)

Module Py.

(** [s.startswith(p)] *)
Fixpoint startswith (s p : string) : bool :=
  match p, s with
  | EmptyString, _ => true
  | String a p', String b s' => Ascii.eqb a b && startswith s' p'
  | String _ _, EmptyString => false
  end.

(** [needle in hay] for strings. *)
Definition contains (needle hay : string) : bool :=
  match String.index 0 needle hay with
  | Some _ => true
  | None => false
  end.

(** [s.replace(c, "")] for a one-character [c]. *)
Fixpoint remove_char (c : ascii) (s : string) : string :=
  match s with
  | EmptyString => EmptyString
  | String a s' =>
      if Ascii.eqb a c then remove_char c s' else String a (remove_char c s')
  end.

(** A Python [str] is a sequence of code points.  It is held here as
    its UTF-8 encoding, one [ascii] per byte, so a character is a lead
    byte followed by its continuation bytes ([10xxxxxx]); slices count
    characters, not bytes. *)
Definition continuation (c : ascii) : bool :=
  let n := nat_of_ascii c in (128 <=? n)%nat && (n <? 192)%nat.

(** [len(s)] *)
Fixpoint code_points (s : string) : nat :=
  match s with
  | EmptyString => O
  | String c s' => ((if continuation c then 0 else 1) + code_points s')%nat
  end.

(** The string does not begin in the middle of a character. *)
Definition at_boundary (s : string) : bool :=
  match s with
  | EmptyString => true
  | String c _ => negb (continuation c)
  end.

(** [s[-n:]] for [n > 0]: the last [n] characters, all of [s] when it is
    shorter. *)
Fixpoint last_chars (n : nat) (s : string) : string :=
  if (code_points s <=? n)%nat && at_boundary s then s
  else match s with
       | EmptyString => EmptyString
       | String _ s' => last_chars n s'
       end.

(** [s[:-n]] for [n > 0]: all but the last [n] characters. *)
Definition drop_last (n : nat) (s : string) : string :=
  String.substring 0 (String.length s - String.length (last_chars n s)) s.

Fixpoint zfill (width : nat) (s : string) (fuel : nat) : string :=
  match fuel with
  | O => s
  | S k => if (String.length s <? width)%nat
           then zfill width ("0" +:+ s) k else s
  end.

(** [f"{n:08x}"] for a non-negative integer. *)
Definition format_08x (n : N) : string :=
  zfill 8 (NilZero.string_of_uint (N.to_hex_uint n)) 8.

(** Truthiness of an optional string attribute: [None] and [""] are
    falsy. *)
Definition truthy_str (o : option string) : bool :=
  match o with
  | Some s => negb (String.eqb s "")
  | None => false
  end.

(** Truthiness of an optional integer attribute: [None] and [0] are
    falsy. *)
Definition truthy_num (o : option N) : bool :=
  match o with
  | Some n => negb (N.eqb n 0)
  | None => false
  end.

End Py.

(** ** Effects

    Methods mutate the object they are called on, call external programs
    and libraries, and may raise.  A computation takes the current state
    and yields an outcome, the state it leaves behind (mutations made
    before an exception survive it) and the external calls it made, in
    order. *)

(** Python exception classes met in the source.  All of them derive from
    [Exception]. *)
Inductive Exn :=
| CalledProcessError
| FileNotFoundError
| TimeoutExpired
| OSError
| AttributeError
| IndexError
| ValueError
| EOFError.

Inductive outcome (A : Type) :=
| Ret (a : A)
| Raise (e : Exn).
Arguments Ret {A} a.
Arguments Raise {A} e.

(** External calls, as they would be seen by an observer of the process. *)
Inductive Event :=
| EvStty (device : string) (baud : Z)
| EvSpawn (port : Z) (device : string)
| EvLocalIp
| EvZeroconfNew
| EvRegister (name server : string) (port : Z)
| EvUnregister (name : string)
| EvZeroconfClose
| EvTerminate (pid : nat)
| EvWait (pid : nat)
| EvKill (pid : nat)
| EvSessionOpen (device : string)
| EvSessionClose (device : string)
| EvSleep.

Definition Eff (S A : Type) : Type := S -> outcome A * S * list Event.

Definition ret {S A} (a : A) : Eff S A := fun s => (Ret a, s, []).

Definition raise {S A} (e : Exn) : Eff S A := fun s => (Raise e, s, []).

Definition bind {S A B} (m : Eff S A) (k : A -> Eff S B) : Eff S B :=
  fun s =>
    match m s with
    | (Ret a, s1, t1) =>
        match k a s1 with
        | (r, s2, t2) => (r, s2, (t1 ++ t2)%list)
        end
    | (Raise e, s1, t1) => (Raise e, s1, t1)
    end.

(** [try: m except Exception: h] *)
Definition try_except {S A} (m : Eff S A) (h : Exn -> Eff S A) : Eff S A :=
  fun s =>
    match m s with
    | (Ret a, s1, t1) => (Ret a, s1, t1)
    | (Raise e, s1, t1) =>
        match h e s1 with
        | (r, s2, t2) => (r, s2, (t1 ++ t2)%list)
        end
    end.

Definition get {S} : Eff S S := fun s => (Ret s, s, []).

Definition modify {S} (f : S -> S) : Eff S unit := fun s => (Ret tt, f s, []).

(** An external call: it is recorded, and returns or raises as the
    environment decides. *)
Definition call {S A} (ev : Event) (r : outcome A) : Eff S A :=
  fun s => (r, s, [ev]).

Definition when {S} (c : bool) (m : Eff S unit) : Eff S unit :=
  if c then m else ret tt.

#[global] Instance Eff_ret {S} : MRet (Eff S) := fun A a => ret a.
#[global] Instance Eff_bind {S} : MBind (Eff S) := fun A B k m => bind m k.

(** ** class Bridge *)

(** A [subprocess.Popen] handle.  [returncode] is what [poll()] returns at
    the moment of observation: [None] while the process runs. *)
Record Popen := { pid : nat; returncode : option Z }.

Record Zeroconf := { zc_id : nat }.

Record ServiceInfo := {
  si_type : string;
  si_name : string;
  si_address : string;
  si_port : Z;
  si_node_id : string;
  si_device : string;
  si_server : string
}.

Record Bridge := {
  device : string;
  port : Z;
  node_id : option string;
  baud : Z;
  process : option Popen;
  zeroconf : option Zeroconf;
  service_info : option ServiceInfo
}.

(** [Bridge.__init__] *)
Definition Bridge_init (device : string) (port : Z) (node_id : option string)
  : Bridge :=
  {| device := device; port := port; node_id := node_id; baud := 115200;
     process := None; zeroconf := None; service_info := None |}.

Definition set_process (p : option Popen) (b : Bridge) : Bridge :=
  {| device := device b; port := port b; node_id := node_id b; baud := baud b;
     process := p; zeroconf := zeroconf b; service_info := service_info b |}.

Definition set_zeroconf (z : option Zeroconf) (b : Bridge) : Bridge :=
  {| device := device b; port := port b; node_id := node_id b; baud := baud b;
     process := process b; zeroconf := z; service_info := service_info b |}.

Definition set_service_info (si : option ServiceInfo) (b : Bridge) : Bridge :=
  {| device := device b; port := port b; node_id := node_id b; baud := baud b;
     process := process b; zeroconf := zeroconf b; service_info := si |}.

(** What the outside world answers to the calls made by [start]. *)
Record StartEnv := {
  ZEROCONF_AVAILABLE : bool;
  stty_result : outcome unit;
  popen_result : outcome Popen;
  local_ip_result : outcome string;
  zeroconf_result : outcome Zeroconf;
  inet_aton_ok : bool;
  register_result : outcome unit
}.

(** The host name computed at the top of [_start_mdns]. *)
Definition mdns_short_id (node_id : string) : string :=
  Py.last_chars 4 (Py.remove_char "!" node_id).

Definition mdns_hostname (node_id : string) : string :=
  "meshtastic_" +:+ mdns_short_id node_id +:+ ".local.".

(** [Bridge._start_mdns].  It is only called with a truthy [node_id]; on
    [None] the first line raises AttributeError, which the handler
    swallows like any other exception. *)
Definition _start_mdns (w : StartEnv) : Eff Bridge unit :=
  try_except
    (self ← get;
     nid ← match node_id self with
            | Some s => ret s
            | None => raise AttributeError
            end;
     let hostname := mdns_hostname nid in
     local_ip ← call EvLocalIp (local_ip_result w);
     zc ← call EvZeroconfNew (zeroconf_result w);
     modify (set_zeroconf (Some zc)) ;;
     (if inet_aton_ok w then ret tt else raise OSError) ;;
     let info := {| si_type := "_meshtastic._tcp.local.";
                    si_name := Py.drop_last 7 hostname
                                 +:+ "._meshtastic._tcp.local.";
                    si_address := local_ip;
                    si_port := port self;
                    si_node_id := nid;
                    si_device := device self;
                    si_server := hostname |} in
     modify (set_service_info (Some info)) ;;
     call (EvRegister (si_name info) (si_server info) (si_port info))
          (register_result w))
    (fun _ => ret tt).

(** [Bridge.start] *)
Definition start (w : StartEnv) : Eff Bridge bool :=
  try_except
    (self ← get;
     call (EvStty (device self) (baud self)) (stty_result w) ;;
     p ← call (EvSpawn (port self) (device self)) (popen_result w);
     modify (set_process (Some p)) ;;
     when (ZEROCONF_AVAILABLE w && Py.truthy_str (node_id self))
          (_start_mdns w) ;;
     ret true)
    (fun _ => ret false).

(** What the outside world answers to the calls made by [stop].
    [Popen.wait(timeout=3)] returns, or raises TimeoutExpired when the
    process is still there after the grace period. *)
Record StopEnv := {
  unregister_result : outcome unit;
  close_result : outcome unit;
  wait_timed_out : bool
}.

(** [Bridge.stop] *)
Definition stop (w : StopEnv) : Eff Bridge unit :=
  self ← get;
  match zeroconf self, service_info self with
  | Some _, Some info =>
      try_except
        (call (EvUnregister (si_name info)) (unregister_result w) ;;
         call EvZeroconfClose (close_result w))
        (fun _ => ret tt) ;;
      modify (set_zeroconf None) ;;
      modify (set_service_info None)
  | _, _ => ret tt
  end ;;
  match process self with
  | Some p =>
      call (EvTerminate (pid p)) (Ret tt) ;;
      try_except
        (call (EvWait (pid p))
              (if wait_timed_out w then Raise TimeoutExpired else Ret tt))
        (fun e => match e with
                  | TimeoutExpired => call (EvKill (pid p)) (Ret tt)
                  | _ => raise e
                  end) ;;
      modify (set_process None)
  | None => ret tt
  end.

(** [Bridge.is_running] *)
Definition is_running (self : Bridge) : bool :=
  match process self with
  | Some p => match returncode p with None => true | Some _ => false end
  | None => false
  end.

(** The subprocess ends on its own (the device is unplugged, socat
    crashes): the handle stays, and [poll()] now returns the exit code. *)
Definition process_exits (code : Z) (self : Bridge) : Bridge :=
  match process self with
  | Some p => set_process (Some {| pid := pid p; returncode := Some code |}) self
  | None => self
  end.

(** The guard of the first block of [stop]: a registration is held when
    both handles are set. *)
Definition registered (self : Bridge) : bool :=
  match zeroconf self, service_info self with
  | Some _, Some _ => true
  | _, _ => false
  end.

(** ** query_meshtastic_info *)

(** The attributes of the identification session that the probe reads.
    An attribute that is missing ([hasattr] false) or [None] is [None]
    here; objects that are present are truthy. *)
Record User := { user_longName : option string; user_shortName : option string }.

Record MyInfo := { my_node_num : option N; user : option User }.

Record LocalNode := { node_owner : option string; node_longName : option string }.

Record SerialInterface := { myInfo : option MyInfo; localNode : option LocalNode }.

(** One turn of the polling loop as the outside world plays it: the clock
    read by the loop test, what reading the session yields in the body (a
    snapshot, or an exception), and the clock read by the grace test. *)
Record Poll := {
  t_guard : Q;
  observed : outcome SerialInterface;
  t_grace : Q
}.

(** A probe run: whether the session opens, the clock at [start_time],
    the scripted turns, the clock read by the loop test after the last
    scripted turn, and whether [interface.close()] returns. *)
Record ProbeEnv := {
  open_result : outcome unit;
  start_time : Q;
  polls : list Poll;
  t_last : Q;
  session_close_result : outcome unit
}.

Definition Qltb (x y : Q) : bool := negb (Qle_bool y x).

(** [my_info.user.longName], else [my_info.user.shortName] *)
Definition owner_from_user (my_info : MyInfo) : option string :=
  match user my_info with
  | Some u =>
      if Py.truthy_str (user_longName u) then user_longName u
      else if Py.truthy_str (user_shortName u) then user_shortName u
      else None
  | None => None
  end.

(** The owner name, from [myInfo.user] first and [localNode] second. *)
Definition find_owner (interface : SerialInterface) (my_info : MyInfo)
  : option string :=
  let owner := owner_from_user my_info in
  if negb (Py.truthy_str owner) then
    match localNode interface with
    | Some ln =>
        if Py.truthy_str (node_owner ln) then node_owner ln
        else if Py.truthy_str (node_longName ln) then node_longName ln
        else owner
    | None => owner
    end
  else owner.

(** What lines 226-253 look at, said of the session rather than computed
    from it.  An attribute is offered when it is there and truthy, that
    is a non-empty string; it is withheld when it is missing, [None] or
    empty. *)
Definition offers (attribute : option string) (s : string) : Prop :=
  attribute = Some s /\ s <> "".

Definition withholds (attribute : option string) : Prop :=
  attribute = None \/ attribute = Some "".

(** [myInfo.user] names nobody: it is missing, or both of its names are
    withheld. *)
Definition user_silent (my_info : MyInfo) : Prop :=
  match user my_info with
  | Some u => withholds (user_longName u) /\ withholds (user_shortName u)
  | None => True
  end.

(** [localNode] names nobody. *)
Definition local_node_silent (interface : SerialInterface) : Prop :=
  match localNode interface with
  | Some ln => withholds (node_owner ln) /\ withholds (node_longName ln)
  | None => True
  end.

(** The session names an owner: [myInfo.user.longName], else
    [myInfo.user.shortName], else [localNode.owner], else
    [localNode.longName]. *)
Inductive owner_available (interface : SerialInterface) (my_info : MyInfo)
    (owner : string) : Prop :=
| owner_user_longName (u : User) :
    user my_info = Some u ->
    offers (user_longName u) owner ->
    owner_available interface my_info owner
| owner_user_shortName (u : User) :
    user my_info = Some u ->
    withholds (user_longName u) ->
    offers (user_shortName u) owner ->
    owner_available interface my_info owner
| owner_localNode_owner (ln : LocalNode) :
    user_silent my_info ->
    localNode interface = Some ln ->
    offers (node_owner ln) owner ->
    owner_available interface my_info owner
| owner_localNode_longName (ln : LocalNode) :
    user_silent my_info ->
    localNode interface = Some ln ->
    withholds (node_owner ln) ->
    offers (node_longName ln) owner ->
    owner_available interface my_info owner.

(** The session names no owner at all. *)
Definition owner_unavailable (interface : SerialInterface) (my_info : MyInfo)
  : Prop :=
  user_silent my_info /\ local_node_silent interface.

(** [f"!{my_node_num:08x}"] *)
Definition render_node_id (my_node_num : N) : string :=
  "!" +:+ Py.format_08x my_node_num.

(** The body of the polling loop up to [time.sleep]: [Some r] when it
    returns [r], [None] when it falls through to the sleep. *)
Definition poll_body (start : Q) (p : Poll) : outcome (option string) :=
  match observed p with
  | Raise e => Raise e
  | Ret interface =>
      match myInfo interface with
      | Some my_info =>
          match my_node_num my_info with
          | Some n =>
              if Py.truthy_num (Some n) then
                let node_id := render_node_id n in
                match find_owner interface my_info with
                | Some owner =>
                    if Py.truthy_str (Some owner)
                    then Ret (Some (node_id +:+ " (" +:+ owner +:+ ")"))
                    else if Qltb 5 (t_grace p - start) then Ret (Some node_id)
                    else Ret None
                | None =>
                    if Qltb 5 (t_grace p - start) then Ret (Some node_id)
                    else Ret None
                end
              else Ret None
          | None => Ret None
          end
      | None => Ret None
      end
  end.

(** [interface.close()] followed by [return r].  The call sits inside
    the [try]: when it raises, the exception takes the place of [r]. *)
Definition close_and_return (device_path : string) (close : outcome unit)
    (r : option string) : outcome (option string) * list Event :=
  (match close with Ret _ => Ret r | Raise e => Raise e end,
   [EvSessionClose device_path]).

(** The [while] loop and the lines after it, over the scripted turns.
    [None] means the script ran out while the loop test still passed. *)
Fixpoint poll_loop (device_path : string) (timeout : Z) (start last : Q)
    (close : outcome unit) (script : list Poll)
  : option (outcome (option string) * list Event) :=
  match script with
  | [] =>
      if Qltb (last - start) (inject_Z timeout) then None
      else Some (close_and_return device_path close None)
  | p :: rest =>
      if Qltb (t_guard p - start) (inject_Z timeout) then
        match poll_body start p with
        | Raise e => Some (Raise e, [])
        | Ret (Some r) => Some (close_and_return device_path close (Some r))
        | Ret None =>
            match poll_loop device_path timeout start last close rest with
            | Some (r, t) => Some (r, EvSleep :: t)
            | None => None
            end
        end
      else Some (close_and_return device_path close None)
  end.

(** A poll at which the loop test passes and the body falls through to
    [time.sleep]. *)
Definition quiet (timeout : Z) (start : Q) (q : Poll) : Prop :=
  Qltb (t_guard q - start) (inject_Z timeout) = true
  /\ poll_body start q = Ret None.

(** [query_meshtastic_info(device_path, timeout)]: the value returned and
    the calls made, or [None] when the script is too short.  The first
    argument is the module flag [MESHTASTIC_AVAILABLE]. *)
Definition query_meshtastic_info (available : bool) (w : ProbeEnv)
    (device_path : string) (timeout : Z)
  : option (option string * list Event) :=
  if negb available then Some (None, [])
  else
    match open_result w with
    | Raise _ => Some (None, [])
    | Ret _ =>
        match poll_loop device_path timeout (start_time w) (t_last w)
                        (session_close_result w) (polls w) with
        | Some (Ret r, t) => Some (r, EvSessionOpen device_path :: t)
        | Some (Raise _, t) => Some (None, EvSessionOpen device_path :: t)
        | None => None
        end
    end.

(** ** find_serial_devices *)

Record SerialDevice := {
  path : string;
  description : string;
  node_name : string
}.

Definition set_node_name (name : string) (d : SerialDevice) : SerialDevice :=
  {| path := path d; description := description d; node_name := name |}.

Fixpoint strip_prefix (p s : string) : option string :=
  match p, s with
  | EmptyString, _ => Some s
  | String a p', String b s' => if Ascii.eqb a b then strip_prefix p' s' else None
  | String _ _, EmptyString => None
  end.

(** The character class [[A-Z0-9]]. *)
Definition upper_or_digit (c : ascii) : bool :=
  let n := nat_of_ascii c in
  ((65 <=? n)%nat && (n <=? 90)%nat) || ((48 <=? n)%nat && (n <=? 57)%nat).

Fixpoint leading (f : ascii -> bool) (s : string) : nat :=
  match s with
  | String a s' => if f a then S (leading f s') else O
  | EmptyString => O
  end.

(** [re.compile(r"/dev/cu\.usbmodem[A-Z0-9]{10,}").match(path)]: the
    pattern is anchored at the start of [path] only. *)
Definition skip_pattern_match (path : string) : bool :=
  match strip_prefix "/dev/cu.usbmodem" path with
  | Some rest => (10 <=? leading upper_or_digit rest)%nat
  | None => false
  end.

Definition darwin_patterns : list string :=
  ["/dev/tty.usb*"; "/dev/cu.usb*"; "/dev/tty.SLAB*"; "/dev/cu.SLAB*"].

Definition linux_patterns : list string :=
  ["/dev/ttyUSB*"; "/dev/ttyACM*"].

Definition darwin_description (path : string) : string :=
  if Py.contains "SLAB" path then "CP210x USB-Serial"
  else if Py.contains "usbmodem" path then "Native USB"
  else if Py.contains "usbserial" path then "USB Serial (CH340/FTDI)"
  else "USB Serial".

Definition linux_description (path : string) : string :=
  if Py.contains "ACM" path then "Native USB (ACM)"
  else if Py.contains "USB" path then "USB Serial Adapter"
  else "USB Serial".

(** The host the scan runs on: [sys.platform], whether the meshtastic
    library could be imported, the file system as seen through
    [glob.glob], and what each probe meets. *)
Record Host := {
  sys_platform : string;
  MESHTASTIC_AVAILABLE : bool;
  glob_glob : string -> list string;
  probe_env : string -> ProbeEnv
}.

(** The body of the inner loop of the macOS branch: the device appended
    for [path], if any. *)
Definition darwin_candidate (skip_devices : gset string) (path : string)
  : option SerialDevice :=
  if decide (path ∈ skip_devices) then None
  else if skip_pattern_match path then None
  else if Py.startswith path "/dev/cu."
       then Some {| path := path; description := darwin_description path;
                    node_name := "" |}
       else None.

(** The body of the inner loop of the other branch. *)
Definition linux_candidate (path : string) : SerialDevice :=
  {| path := path; description := linux_description path; node_name := "" |}.

(** The devices collected before any of them is queried. *)
Definition enumerate_devices (h : Host) (skip_devices : gset string)
  : list SerialDevice :=
  if String.eqb (sys_platform h) "darwin" then
    flat_map (fun pattern => omap (darwin_candidate skip_devices)
                                  (glob_glob h pattern))
             darwin_patterns
  else
    flat_map (fun pattern => linux_candidate <$> glob_glob h pattern)
             linux_patterns.

(** One turn of the query loop: the device with its [node_name] set when
    the probe answered. *)
Definition query_device (h : Host) (d : SerialDevice) : option SerialDevice :=
  match query_meshtastic_info (MESHTASTIC_AVAILABLE h) (probe_env h (path d))
                              (path d) 10 with
  | Some (node_id, _) =>
      if Py.truthy_str node_id
      then Some (set_node_name (default "" node_id) d)
      else Some d
  | None => None
  end.

(** [find_serial_devices(query_names, skip_devices)].  [skip_devices] is
    [None] for the default argument.  The result is [None] only when a
    probe script is too short. *)
Definition find_serial_devices (h : Host) (query_names : bool)
    (skip_devices : option (gset string)) : option (list SerialDevice) :=
  let skip_devices := default ∅ skip_devices in
  let devices := enumerate_devices h skip_devices in
  if query_names && MESHTASTIC_AVAILABLE h
     && negb (bool_decide (devices = []))
  then mapM (query_device h) devices
  else Some devices.

(** ** get_next_available_port *)

(** [{b.port for b in bridges if b.is_running()}] *)
Definition used_ports (bridges : list Bridge) : gset Z :=
  list_to_set (port <$> filter (fun b => is_running b = true) bridges).

(** The ports of [used] at or above [p]; the loop below leaves one of them
    behind at every turn. *)
Definition ports_ahead (used : gset Z) (p : Z) : gset Z :=
  filter (fun q => p <= q) used.

(** [while port in used_ports: port += 1], with [p] for the variable
    [port]. *)
Equations next_port (used : gset Z) (p : Z) : Z
  by wf (size (ports_ahead used p)) lt :=
  next_port used p with decide (p ∈ used) => {
    | left Hin := next_port used (p + 1);
    | right _ := p }.
Next Obligation.
  apply subset_size. unfold ports_ahead.
  split.
  - intros q. rewrite !elem_of_filter. intros [Hle Hq]. split; [lia | done].
  - intros Hsub. specialize (Hsub p). rewrite !elem_of_filter in Hsub.
    destruct Hsub as [Hle _]; [split; [lia | done] | lia].
Qed.

Definition get_next_available_port (start_port : Z) (bridges : list Bridge) : Z :=
  next_port (used_ports bridges) start_port.

(** ** main: the branches of the menu loop that act on [bridges] *)

(** [for x in xs: body(x)], where the body mutates the object it is given;
    [i] counts the turns.  An exception leaves the rest untouched. *)
Fixpoint for_each {St} (body : nat -> St -> Eff St unit) (i : nat)
    (xs : list St) : outcome unit * list St * list Event :=
  match xs with
  | [] => (Ret tt, [], [])
  | x :: rest =>
      match body i x x with
      | (Ret _, x', t) =>
          match for_each body (S i) rest with
          | (r, rest', t') => (r, x' :: rest', (t ++ t')%list)
          end
      | (Raise e, x', t) => (Raise e, x' :: rest, t)
      end
  end.

(** A method call on an object that is not part of the state. *)
Definition on_object {T S A} (obj : S) (m : Eff S A) : Eff T (A * S) :=
  fun t =>
    match m obj with
    | (Ret a, obj', tr) => (Ret (a, obj'), t, tr)
    | (Raise e, _, tr) => (Raise e, t, tr)
    end.

(** The loop shared by the signal handler, both quit branches and the
    stop-all branch:
    [for bridge in bridges: if bridge.is_running(): bridge.stop()].
    [w i] is what the [i]-th bridge of the list meets when it is stopped. *)
Definition stop_running_bridges (w : nat -> StopEnv) : Eff (list Bridge) unit :=
  for_each (fun i b => when (is_running b) (stop (w i))) 0.

(** [signal_handler]: the loop, then [sys.exit(0)]. *)
Definition signal_handler (w : nat -> StopEnv) : Eff (list Bridge) Z :=
  stop_running_bridges w ;; ret 0.

(** The state of the menu loop. *)
Record Menu := {
  bridges : list Bridge;
  devices : list SerialDevice;
  need_scan : bool
}.

Definition set_bridges (bs : list Bridge) (m : Menu) : Menu :=
  {| bridges := bs; devices := devices m; need_scan := need_scan m |}.

Definition set_need_scan (v : bool) (m : Menu) : Menu :=
  {| bridges := bridges m; devices := devices m; need_scan := v |}.

(** A computation on the list of bridges, run on the menu state. *)
Definition on_bridges {A} (m : Eff (list Bridge) A) : Eff Menu A :=
  fun st =>
    match m (bridges st) with
    | (r, bs, t) => (r, set_bridges bs st, t)
    end.

(** [{b.device for b in bridges if b.is_running()}] *)
Definition active_device_paths (bridges : list Bridge) : gset string :=
  list_to_set (device <$> filter (fun b => is_running b = true) bridges).

(** [next((b for b in bridges if b.device == path and b.is_running()), None)] *)
Definition existing_bridge (path : string) (bridges : list Bridge)
  : option Bridge :=
  head (filter (fun b => device b = path /\ is_running b = true) bridges).

(** What [input()] yields at the port prompt, after [strip()]: nothing,
    something [int()] accepts, something it rejects, or EOFError when
    standard input has ended. *)
Inductive PortInput :=
| PortBlank
| PortInt (n : Z)
| PortNotInt
| PortEOF.

(** What [input()] yields at the menu prompt, after [strip().lower()].
    [ChoiceDigits n] is a string for which [isdigit()] holds and that
    [int()] reads as [n]; [ChoiceDigitsNotInt] is one for which
    [isdigit()] holds and that [int()] rejects (a superscript two, or
    more digits than [int()] converts); [ChoiceEOF] is EOFError, raised
    when standard input has ended. *)
Inductive Choice :=
| ChoiceQ
| ChoiceR
| ChoiceS
| ChoiceDigits (n : N) (port_input : PortInput)
| ChoiceDigitsNotInt
| ChoiceOther
| ChoiceEOF.

(** What the branch taken tells the user. *)
Inductive Report :=
| Quit (code : Z)
| Rescan
| AllBridgesStopped
| AlreadyRunning (port : Z)
| InvalidPortNumber
| BridgeStarted (mdns : option string)
| FailedToStart
| InvalidDeviceNumber
| InvalidOption.

(** The stop-all branch, lines 560-569. *)
Definition stop_all (w : nat -> StopEnv) : Eff Menu Report :=
  on_bridges (stop_running_bridges w) ;;
  modify (set_bridges []) ;;
  modify (set_need_scan true) ;;
  ret AllBridgesStopped.

(** Lines 593-605: the port to listen on, [None] for text that [int()]
    rejects. *)
Definition read_port (default_port : Z) (port_input : PortInput)
  : outcome (option Z) :=
  match port_input with
  | PortBlank => Ret (Some default_port)
  | PortInt p => Ret (Some p)
  | PortNotInt => Ret None
  | PortEOF => Raise EOFError
  end.

(** The create branch, lines 571-631, up to what it tells the user.
    [active] is the set [active_device_paths] built at line 521, before
    the menu prompt; the state the branch runs on is the one found when
    the choice is processed, where [is_running()] is polled again (lines
    577-584 and 592).  A subprocess may have ended in between. *)
Definition create_bridge (ws : StartEnv) (active : gset string) (n : N)
    (port_input : PortInput) : Eff Menu Report :=
  st ← get;
  let device_index := Z.of_N n - 1 in
  if (0 <=? device_index)%Z && (device_index <? Z.of_nat (length (devices st)))%Z
  then
    match devices st !! Z.to_nat device_index with
    | Some dev =>
        if decide (path dev ∈ active) then
          match existing_bridge (path dev) (bridges st) with
          | Some b => ret (AlreadyRunning (port b))
          | None => raise AttributeError
          end
        else
          let default_port := get_next_available_port 4403 (bridges st) in
          match read_port default_port port_input with
          | Raise e => raise e
          | Ret None => ret InvalidPortNumber
          | Ret (Some p) =>
              let bridge := Bridge_init (path dev) p (Some (node_name dev)) in
              '(ok, bridge) ← on_object bridge (start ws);
              if ok : bool then
                modify (fun st => set_bridges (bridges st ++ [bridge]) st) ;;
                ret (BridgeStarted
                       (if ZEROCONF_AVAILABLE ws
                           && Py.truthy_str (Some (node_name dev))
                        then Some ("meshtastic_" +:+ mdns_short_id (node_name dev)
                                     +:+ ".local")
                        else None))
              else ret FailedToStart
          end
    | None => raise IndexError
    end
  else ret InvalidDeviceNumber.

(** The scan at the top of the loop, lines 490-494: the paths of the live
    bridges are handed to [find_serial_devices] as [skip_devices]. *)
Definition scan_if_needed (h : Host) (st : Menu) : option Menu :=
  if need_scan st then
    devs ← find_serial_devices h true (Some (active_device_paths (bridges st)));
    Some {| bridges := bridges st; devices := devs; need_scan := false |}
  else Some st.

(** ["Press Enter to continue..."], lines 588, 602 and 630: the prompt
    that follows three of the reports. *)
Definition pause (press_enter : outcome unit) (r : Report) : Eff Menu Report :=
  match r with
  | AlreadyRunning _ | InvalidPortNumber | FailedToStart =>
      match press_enter with
      | Ret _ => ret r
      | Raise e => raise e
      end
  | _ => ret r
  end.

(** One turn of the menu loop once the devices are listed and the prompt
    has been answered, lines 552-639.  [active] is the set built at line
    521; [press_enter] is what the pause prompt yields. *)
Definition handle_choice (ws : StartEnv) (w : nat -> StopEnv)
    (active : gset string) (press_enter : outcome unit) (c : Choice)
  : Eff Menu Report :=
  st ← get;
  match c with
  | ChoiceQ => on_bridges (stop_running_bridges w) ;; ret (Quit 0)
  | ChoiceR => modify (set_need_scan true) ;; ret Rescan
  | ChoiceS =>
      if bool_decide (bridges st = []) then ret InvalidOption else stop_all w
  | ChoiceDigits n port_input =>
      r ← create_bridge ws active n port_input; pause press_enter r
  | ChoiceDigitsNotInt => raise ValueError
  | ChoiceOther => ret InvalidOption
  | ChoiceEOF => raise EOFError
  end.

(** ** class Colors, SerialDevice.__str__ *)

Module Colors.

Definition ESC : ascii := "027".

Definition HEADER : string := String ESC "[95m".

Definition BLUE : string := String ESC "[94m".

Definition CYAN : string := String ESC "[96m".

Definition GREEN : string := String ESC "[92m".

Definition YELLOW : string := String ESC "[93m".

Definition RED : string := String ESC "[91m".

Definition END : string := String ESC "[0m".

Definition BOLD : string := String ESC "[1m".

End Colors.

(** The list [parts] built by [SerialDevice.__str__]. *)
Definition str_parts (self : SerialDevice) : list string :=
  ([path self]
   ++ (if Py.truthy_str (Some (node_name self))
       then [Colors.GREEN +:+ node_name self +:+ Colors.END] else [])
   ++ (if Py.truthy_str (Some (description self))
       then [description self] else []))%list.

(** [SerialDevice.__str__] *)
Definition SerialDevice_str (self : SerialDevice) : string :=
  match str_parts self with
  | p0 :: (_ :: _) as rest => p0 +:+ " (" +:+ String.concat ", " rest +:+ ")"
  | p0 :: [] => p0
  | [] => ""
  end.

(** ** check_dependencies *)

(** [check_dependencies()]: the value returned (or the exception that
    escapes) and the lines printed.  [socat] is what
    [subprocess.run(["socat", "-V"], check=True)] does; the handler
    catches CalledProcessError and FileNotFoundError only. *)
Definition check_dependencies (platform : string)
    (meshtastic_available zeroconf_available : bool) (socat : outcome unit)
  : outcome bool * list string :=
  let notes :=
    ((if meshtastic_available then []
      else [ Colors.YELLOW
               +:+ "Note: meshtastic library not found - device names will not be shown"
               +:+ Colors.END;
             "Install with: pip install meshtastic";
             "" ])
     ++ (if zeroconf_available then []
         else [ Colors.YELLOW
                  +:+ "Note: zeroconf library not found - mDNS announcements disabled"
                  +:+ Colors.END;
                "Install with: pip install zeroconf";
                "" ]))%list in
  let missing :=
    [ Colors.RED +:+ "Error: socat is not installed" +:+ Colors.END;
      if String.eqb platform "darwin" then "Install with: brew install socat"
      else "Install with: apt-get install socat" ] in
  match socat with
  | Ret _ => (Ret true, notes)
  | Raise CalledProcessError => (Ret false, (missing ++ notes)%list)
  | Raise FileNotFoundError => (Ret false, (missing ++ notes)%list)
  | Raise e => (Raise e, [])
  end.

(** ** print_bridges *)

(** [str(n)] for an integer. *)
Definition str_int (n : Z) : string :=
  DecimalString.NilZero.string_of_int (Z.to_int n).

(** The line printed for the [i]-th active bridge. *)
Definition bridge_line (i : nat) (bridge : Bridge) : string :=
  let node_info :=
    if Py.truthy_str (node_id bridge)
    then " (" +:+ Colors.GREEN +:+ default "" (node_id bridge) +:+ Colors.END
           +:+ ")"
    else "" in
  "  " +:+ Colors.GREEN +:+ "[" +:+ str_int (Z.of_nat i) +:+ "]" +:+ Colors.END
    +:+ " " +:+ device bridge +:+ node_info +:+ " → TCP port "
    +:+ str_int (port bridge).

(** [print_bridges(bridges)]: the lines printed, one string per call of
    [print]. *)
Definition print_bridges (bridges : list Bridge) : list string :=
  match bridges with
  | [] => []
  | _ =>
      match filter (fun b => is_running b = true) bridges with
      | [] => []
      | active =>
          (String "010" (Colors.BOLD +:+ "Active Bridges:" +:+ Colors.END))
            :: imap (fun i bridge => bridge_line (S i) bridge) active
      end
  end.

(** ** yolo_mode *)

(** How [yolo_mode] ends: with [sys.exit(code)], or in the sleep loop
    with its one bridge in [bridges], until the signal handler runs. *)
Inductive YoloResult :=
| YoloExit (code : Z)
| YoloBridging (bridges : list Bridge).

(** [for d in devices: if d.node_name: device = d; break] *)
Definition first_identified (devices : list SerialDevice)
  : option SerialDevice :=
  head (filter (fun d => Py.truthy_str (Some (node_name d)) = true) devices).

(** [yolo_mode()], up to the sleep loop: how it ends and the calls made by
    [start].  [None] only when a probe script is too short. *)
Definition yolo_mode (h : Host) (ws : StartEnv) (socat : outcome unit)
  : option (outcome YoloResult * list Event) :=
  match (check_dependencies (sys_platform h) (MESHTASTIC_AVAILABLE h)
                            (ZEROCONF_AVAILABLE ws) socat).1 with
  | Raise e => Some (Raise e, [])
  | Ret false => Some (Ret (YoloExit 1), [])
  | Ret true =>
      devices ← find_serial_devices h true None;
      match devices with
      | [] => Some (Ret (YoloExit 1), [])
      | _ =>
          match first_identified devices with
          | None => Some (Ret (YoloExit 1), [])
          | Some dev =>
              match start ws (Bridge_init (path dev) 4403 (Some (node_name dev))) with
              | (Ret true, bridge, t) => Some (Ret (YoloBridging [bridge]), t)
              | (Ret false, _, t) => Some (Ret (YoloExit 1), t)
              | (Raise e, _, t) => Some (Raise e, t)
              end
          end
      end
  end.

(** ** main: the whole turn of the menu loop *)

(** The menu shown when no device is listed, lines 496-518. *)
Definition no_devices_choice (w : nat -> StopEnv) (c : Choice)
  : Eff Menu Report :=
  match c with
  | ChoiceQ => on_bridges (stop_running_bridges w) ;; ret (Quit 0)
  | ChoiceR => modify (set_need_scan true) ;; ret Rescan
  | ChoiceEOF => raise EOFError
  | _ => ret InvalidOption
  end.

(** Subprocesses that end on their own while the program waits: each
    entry gives a position in [bridges] and an exit code. *)
Definition exit_processes (exits : list (nat * Z)) (bs : list Bridge)
  : list Bridge :=
  foldl (fun bs e => alter (process_exits e.2) e.1 bs) bs exits.

Definition after_exits (exits : list (nat * Z)) (st : Menu) : Menu :=
  set_bridges (exit_processes exits (bridges st)) st.

(** What happens around the program during one turn of the loop: the
    subprocesses that end while the devices are scanned, those that end
    while the menu prompt waits, and what the pause prompt yields. *)
Record Meanwhile := {
  exits_during_scan : list (nat * Z);
  exits_at_prompt : list (nat * Z);
  press_enter : outcome unit
}.

(** One turn of [while True], lines 485-639: the scan when it is due, then
    the menu that fits the device list.  The set of line 521 is built
    before [input()] blocks; the branch runs on the state found after it.
    [None] only when a probe script is too short. *)
Definition main_turn (h : Host) (ws : StartEnv) (w : nat -> StopEnv)
    (m : Meanwhile) (c : Choice) (st : Menu)
  : option (outcome Report * Menu * list Event) :=
  st1 ← scan_if_needed h st;
  let st2 := after_exits (exits_during_scan m) st1 in
  if bool_decide (devices st2 = []) then
    Some (no_devices_choice w c (after_exits (exits_at_prompt m) st2))
  else
    let active := active_device_paths (bridges st2) in
    Some (handle_choice ws w active (press_enter m) c
            (after_exits (exits_at_prompt m) st2)).

(** The state [main] enters the loop with, lines 469-483. *)
Definition initial_menu : Menu :=
  {| bridges := []; devices := []; need_scan := true |}.

(** The menu states the program can be in: those reached from
    [initial_menu] by turns of the loop, on any host and with any answers
    from the outside world, and by subprocesses ending on their own at
    any other moment. *)
Inductive reachable : Menu -> Prop :=
| reachable_initial : reachable initial_menu
| reachable_turn (h : Host) (ws : StartEnv) (w : nat -> StopEnv)
    (m : Meanwhile) (c : Choice) (st st' : Menu) (r : Report) (t : list Event) :
    reachable st ->
    main_turn h ws w m c st = Some (Ret r, st', t) ->
    reachable st'
| reachable_exit (i : nat) (code : Z) (st : Menu) :
    reachable st ->
    reachable (set_bridges (alter (process_exits code) i (bridges st)) st).

(** * Sample environments

    Concrete hosts, sessions and menu states on which the properties below
    are exercised. *)

Definition env_ok : StartEnv :=
  {| ZEROCONF_AVAILABLE := true;
     stty_result := Ret tt;
     popen_result := Ret {| pid := 1; returncode := None |};
     local_ip_result := Ret "192.168.1.2";
     zeroconf_result := Ret {| zc_id := 0 |};
     inet_aton_ok := true;
     register_result := Ret tt |}.

Definition stop_env_ok : StopEnv :=
  {| unregister_result := Ret tt; close_result := Ret tt;
     wait_timed_out := false |}.

(** A session that reports node number 0x3c7f9d4e and the owner name
    "Alice" at the first poll. *)
Definition probe_with_owner : ProbeEnv :=
  {| open_result := Ret tt;
     start_time := 0;
     polls :=
       [ {| t_guard := 0;
            observed :=
              Ret {| myInfo :=
                       Some {| my_node_num := Some 1014996302%N;
                               user := Some {| user_longName := Some "Alice";
                                               user_shortName := None |} |};
                     localNode := None |};
            t_grace := 0 |} ];
     t_last := 10;
     session_close_result := Ret tt |}.

(** A macOS host with one serial adapter, seen under both of its names. *)
Definition mac_host : Host :=
  {| sys_platform := "darwin";
     MESHTASTIC_AVAILABLE := true;
     glob_glob := fun pattern =>
       if String.eqb pattern "/dev/tty.usb*" then ["/dev/tty.usbserial-0001"]
       else if String.eqb pattern "/dev/cu.usb*" then ["/dev/cu.usbserial-0001"]
       else [];
     probe_env := fun _ => probe_with_owner |}.

(** A session that opens and then raises while it is being read. *)
Definition probe_raising : ProbeEnv :=
  {| open_result := Ret tt;
     start_time := 0;
     polls := [ {| t_guard := 0; observed := Raise OSError; t_grace := 0 |} ];
     t_last := 10;
     session_close_result := Ret tt |}.

(** A session that reports node number 0x3c7f9d4e from the start and never
    an owner; the clock advances by a second per poll, and the grace test
    of the seventh poll reads 6.1. *)
Definition bare_interface : SerialInterface :=
  {| myInfo := Some {| my_node_num := Some 1014996302%N; user := None |};
     localNode := None |}.

Definition probe_bare : ProbeEnv :=
  {| open_result := Ret tt;
     start_time := 100;
     polls :=
       [ {| t_guard := 100; observed := Ret bare_interface; t_grace := 100.1 |};
         {| t_guard := 101; observed := Ret bare_interface; t_grace := 101.1 |};
         {| t_guard := 102; observed := Ret bare_interface; t_grace := 102.1 |};
         {| t_guard := 103; observed := Ret bare_interface; t_grace := 103.1 |};
         {| t_guard := 104; observed := Ret bare_interface; t_grace := 104.1 |};
         {| t_guard := 105; observed := Ret bare_interface; t_grace := 105 |};
         {| t_guard := 106; observed := Ret bare_interface; t_grace := 106.1 |};
         {| t_guard := 107; observed := Ret bare_interface; t_grace := 107.1 |} ];
     t_last := 110;
     session_close_result := Ret tt |}.

(** A Linux host with one serial adapter, and the list of bridges of a
    menu that has bridged it. *)
Definition linux_host : Host :=
  {| sys_platform := "linux";
     MESHTASTIC_AVAILABLE := true;
     glob_glob := fun pattern =>
       if String.eqb pattern "/dev/ttyUSB*" then ["/dev/ttyUSB0"] else [];
     probe_env := fun _ => probe_with_owner |}.

Definition linux_bridges : list Bridge :=
  [ set_process (Some {| pid := 1; returncode := None |})
      (Bridge_init "/dev/ttyUSB0" 4403 (Some "!3c7f9d4e (Alice)")) ].

(** A bridge started on an identified device, with its registration, and
    the same bridge after its subprocess has exited. *)
Definition started_bridge : Bridge :=
  (start env_ok (Bridge_init "/dev/cu.usbserial-0001" 4403 (Some "!3c7f9d4e"))).1.2.

Definition exited_bridge : Bridge := process_exits 1 started_bridge.

(** A menu with two devices listed, the first of them bridged on 4403. *)
Definition menu_one_live : Menu :=
  {| bridges := [started_bridge];
     devices :=
       [ {| path := "/dev/cu.usbserial-0001";
            description := "USB Serial (CH340/FTDI)";
            node_name := "!3c7f9d4e" |};
         {| path := "/dev/cu.usbserial-0002";
            description := "USB Serial (CH340/FTDI)";
            node_name := "" |} ];
     need_scan := false |}.

(** [mac_host] without the meshtastic library. *)
Definition mac_host_no_meshtastic : Host :=
  {| sys_platform := "darwin";
     MESHTASTIC_AVAILABLE := false;
     glob_glob := glob_glob mac_host;
     probe_env := probe_env mac_host |}.

(** A turn during which no subprocess ends and the pause prompt is
    answered. *)
Definition uneventful : Meanwhile :=
  {| exits_during_scan := []; exits_at_prompt := []; press_enter := Ret tt |}.


(** The menu after one turn on [mac_host]: the scan lists the adapter and
    the user picks it with the default port. *)
Definition menu_after_first_turn : Menu :=
  match main_turn mac_host env_ok (fun _ => stop_env_ok) uneventful
                  (ChoiceDigits 1 PortBlank) initial_menu with
  | Some (_, st, _) => st
  | None => initial_menu
  end.

(** * Properties *)

(** ** Python values *)

Example format_08x_ex : Py.format_08x 1014996302 = "3c7f9d4e".
Proof. reflexivity. Qed.

Example format_08x_small : Py.format_08x 255 = "000000ff".
Proof. reflexivity. Qed.

Example last_chars_ex : Py.last_chars 4 "3c7f9d4e" = "9d4e".
Proof. reflexivity. Qed.

Example last_chars_short : Py.last_chars 4 "ab" = "ab".
Proof. reflexivity. Qed.

Example drop_last_ex :
  Py.drop_last 7 "meshtastic_9d4e.local." = "meshtastic_9d4e".
Proof. reflexivity. Qed.

Lemma remove_char_hex (d : Hexadecimal.uint) :
  Py.remove_char "!" (NilEmpty.string_of_uint d) = NilEmpty.string_of_uint d.
Proof. induction d; simpl; congruence. Qed.

Lemma remove_char_zfill (width fuel : nat) (s : string) :
  Py.remove_char "!" s = s ->
  Py.remove_char "!" (Py.zfill width s fuel) = Py.zfill width s fuel.
Proof.
  revert s. induction fuel as [|k IH]; intros s Hs; simpl; [done |].
  destruct (String.length s <? width)%nat; [| done].
  apply IH. change ("0" +:+ s) with (String "0" s). simpl. by rewrite Hs.
Qed.

(** The digits of a rendered node number hold no exclamation mark. *)
Lemma remove_char_format_08x (n : N) :
  Py.remove_char "!" (Py.format_08x n) = Py.format_08x n.
Proof.
  unfold Py.format_08x. apply remove_char_zfill.
  unfold NilZero.string_of_uint.
  destruct (N.to_hex_uint n); try apply (remove_char_hex (_ _)); reflexivity.
Qed.

(** ** Bridge *)

Ltac unfold_eff :=
  unfold mbind, mret, Eff_bind, Eff_ret, bind, try_except, when, call, get,
    modify, ret, raise in *.

(** [_start_mdns] swallows every failure, and leaves the subprocess handle
    alone. *)
Lemma start_mdns_swallows (w : StartEnv) (b : Bridge) :
  exists b' t, _start_mdns w b = (Ret tt, b', t) /\ process b' = process b.
Proof.
  unfold _start_mdns. unfold_eff.
  destruct (node_id b) as [nid|]; [| by eauto].
  destruct (local_ip_result w) as [ip|]; [| by eauto].
  destruct (zeroconf_result w) as [zc|]; [| by eauto].
  destruct (inet_aton_ok w); [| by eauto].
  destruct (register_result w) as [[]|]; by eauto.
Qed.

Lemma start_spawned (w : StartEnv) (b : Bridge) (h : Popen) :
  stty_result w = Ret tt -> popen_result w = Ret h ->
  exists b' t, start w b = (Ret true, b', t) /\ process b' = Some h
               /\ In (EvSpawn (port b) (device b)) t.
Proof.
  intros Hstty Hpopen. unfold start. unfold_eff. rewrite Hstty, Hpopen.
  destruct (ZEROCONF_AVAILABLE w && Py.truthy_str (node_id b)).
  - destruct (start_mdns_swallows w (set_process (Some h) b))
      as (b' & t & Hm & Hp).
    unfold_eff. rewrite Hm. do 2 eexists. split; [reflexivity |].
    split; [by rewrite Hp | simpl; auto].
  - do 2 eexists. split; [reflexivity |]. split; [done | simpl; auto].
Qed.

Lemma start_not_spawned (w : StartEnv) (b : Bridge) :
  (exists e, stty_result w = Raise e) \/ (exists e, popen_result w = Raise e) ->
  exists t, start w b = (Ret false, b, t)
            /\ (In (EvSpawn (port b) (device b)) t ->
                exists e, popen_result w = Raise e).
Proof.
  intros Hfail. unfold start. unfold_eff.
  destruct (stty_result w) as [[]|e1] eqn:Hstty.
  - destruct Hfail as [[e He] | [e He]]; [done |]. rewrite He.
    eexists. split; [reflexivity | eauto].
  - eexists. split; [reflexivity |]. simpl. intros [H | []]. discriminate.
Qed.

(** The two ways [start] can go, by what the environment answers. *)
Lemma start_cases (w : StartEnv) :
  (exists h, stty_result w = Ret tt /\ popen_result w = Ret h)
  \/ ((exists e, stty_result w = Raise e) \/ (exists e, popen_result w = Raise e)).
Proof.
  destruct (stty_result w) as [[]|e1]; [| by eauto].
  destruct (popen_result w) as [h|e2]; by eauto.
Qed.

(** When the environment lets [start] fail, the create branch leaves the
    menu state as it found it. *)
Lemma create_bridge_start_fails (w : StartEnv) (active : gset string) (n : N)
    (pin : PortInput) (st : Menu) :
  (exists e, stty_result w = Raise e) \/ (exists e, popen_result w = Raise e) ->
  exists r t, create_bridge w active n pin st = (r, st, t).
Proof.
  intros Hfail. unfold create_bridge. unfold_eff.
  destruct (_ && _); [| by eauto].
  destruct (devices st !! _) as [dev|]; [| by eauto].
  destruct (decide _).
  { destruct (existing_bridge _ _); by eauto. }
  destruct pin as [|p| |]; simpl; try by eauto.
  - unfold on_object.
    destruct (start_not_spawned w
                (Bridge_init (path dev) (get_next_available_port 4403 (bridges st))
                             (Some (node_name dev))) Hfail) as (t & -> & _).
    by eauto.
  - unfold on_object.
    destruct (start_not_spawned w (Bridge_init (path dev) p (Some (node_name dev)))
                Hfail) as (t & -> & _).
    by eauto.
Qed.

(** A failing stty call ends [start] before anything is spawned. *)
Lemma start_stty_fails (w : StartEnv) (b : Bridge) (e : Exn) :
  stty_result w = Raise e ->
  start w b = (Ret false, b, [EvStty (device b) (baud b)]).
Proof. intros Hstty. unfold start. unfold_eff. by rewrite Hstty. Qed.

(** What [start] returns is settled by the stty call and the spawn. *)
Lemma start_result (w : StartEnv) (b : Bridge) :
  (start w b).1.1
  = Ret (match stty_result w, popen_result w with
         | Ret _, Ret _ => true
         | _, _ => false
         end).
Proof.
  destruct (start_cases w) as [(h & Hstty & Hpopen) | Hfail].
  - destruct (start_spawned w b h Hstty Hpopen) as (b' & t & -> & _).
    by rewrite Hstty, Hpopen.
  - destruct (start_not_spawned w b Hfail) as (t & -> & _).
    destruct Hfail as [[e ->] | [e ->]]; [done |].
    by destruct (stty_result w).
Qed.

(** C8.  [start], called on a freshly constructed Bridge, returns true
    exactly when the stty call returned and the spawn of the forwarding
    subprocess returned a handle; the answers given to the mDNS
    registration (the library flag, the address lookup, the registrar,
    the service record, the registration call) have no part in it.  When
    stty fails nothing is spawned.  When [start] returns true the handle
    is the spawned one; when it returns false the handle is unset,
    [is_running] is false, and the create branch of the menu leaves the
    list of bridges unchanged. *)
Theorem start_true_iff_spawn_succeeds (w : StartEnv) (dev : string) (p : Z)
    (nid : option string) :
  exists ok b' t,
    start w (Bridge_init dev p nid) = (Ret ok, b', t) /\
    (ok = true <->
       stty_result w = Ret tt /\ exists h, popen_result w = Ret h) /\
    (ok = true <-> In (EvSpawn p dev) t /\ exists h, popen_result w = Ret h) /\
    (forall w' : StartEnv,
       stty_result w' = stty_result w -> popen_result w' = popen_result w ->
       (start w' (Bridge_init dev p nid)).1.1 = Ret ok) /\
    ((exists e, stty_result w = Raise e) -> t = [EvStty dev 115200]) /\
    (ok = true -> exists h, popen_result w = Ret h /\ process b' = Some h) /\
    (ok = false ->
       process b' = None /\ is_running b' = false /\
       forall active n pin st,
         bridges (create_bridge w active n pin st).1.2 = bridges st).
Proof.
  destruct (start_cases w) as [(h & Hstty & Hpopen) | Hfail].
  - destruct (start_spawned w (Bridge_init dev p nid) h Hstty Hpopen)
      as (b' & t & Hs & Hp & Hin).
    exists true, b', t. split; [done |].
    split; [| split; [| split; [| split; [| split]]]].
    + split; [by eauto | done].
    + split; [by eauto | done].
    + intros w' Hstty' Hpopen'.
      by rewrite start_result, Hstty', Hpopen', Hstty, Hpopen.
    + intros [e He]. congruence.
    + by eauto.
    + discriminate.
  - destruct (start_not_spawned w (Bridge_init dev p nid) Hfail)
      as (t & Hs & Hin).
    exists false, (Bridge_init dev p nid), t. split; [done |].
    split; [| split; [| split; [| split; [| split]]]].
    + split; [discriminate |]. intros [Hstty [h Hh]].
      destruct Hfail as [[e He] | [e He]]; congruence.
    + split; [discriminate |]. intros [Hspawn [h Hh]].
      destruct (Hin Hspawn) as [e He]. congruence.
    + intros w' Hstty' Hpopen'. rewrite start_result, Hstty', Hpopen'.
      destruct Hfail as [[e ->] | [e ->]]; [done |].
      by destruct (stty_result w).
    + intros [e He].
      rewrite (start_stty_fails w _ e He) in Hs. by injection Hs as <-.
    + discriminate.
    + intros _. split; [done |]. split; [done |]. intros active n pin st.
      destruct (create_bridge_start_fails w active n pin st Hfail)
        as (r & t' & ->).
      done.
Qed.

(** [stop] never raises; it drops the registration when both of its
    handles are set, and the subprocess handle in every case. *)
Lemma stop_returns (w : StopEnv) (b : Bridge) :
  exists t,
    stop w b =
      (Ret tt,
       set_process None
         (if registered b then set_service_info None (set_zeroconf None b)
          else b),
       t).
Proof.
  destruct b as [d p n bd pr zc si], w as [ur cr wt].
  destruct pr as [h|], zc as [z|], si as [i|], ur as [[]|e1], cr as [[]|e2], wt;
    eexists; reflexivity.
Qed.

(** On a Bridge that holds neither a registration nor a subprocess handle
    [stop] makes no external call and changes nothing. *)
Lemma stop_stopped (w : StopEnv) (b : Bridge) :
  registered b = false -> process b = None -> stop w b = (Ret tt, b, []).
Proof.
  destruct b as [d p n bd pr zc si]. simpl. intros Hreg ->.
  destruct zc as [z|], si as [i|]; try discriminate; reflexivity.
Qed.

(** What does hold of repeated stops: the first call returns without
    raising and leaves the Bridge with no subprocess handle, [is_running]
    false and the guard of the registration block false; a second call,
    in any environment, returns without raising, makes no external call
    and leaves that state as it is.  The guard is false as soon as one of
    the two registration handles is unset, which is less than both being
    cleared. *)
Lemma stop_idempotent (w1 w2 : StopEnv) (b : Bridge) :
  exists b1 t1,
    stop w1 b = (Ret tt, b1, t1) /\
    process b1 = None /\ registered b1 = false /\ is_running b1 = false /\
    stop w2 b1 = (Ret tt, b1, []).
Proof.
  destruct (stop_returns w1 b) as [t1 Hstop].
  eexists _, t1. split; [exact Hstop |].
  assert (Hreg : registered
            (set_process None
               (if registered b
                then set_service_info None (set_zeroconf None b) else b))
          = false).
  { destruct b as [d p n bd pr [z|] [i|]]; reflexivity. }
  split; [done |]. split; [exact Hreg |]. split; [done |].
  by apply stop_stopped.
Qed.

(** A registrar without a service record is neither closed nor dropped
    by [stop], in any environment. *)
Lemma stop_keeps_lone_registrar (w : StopEnv) (b : Bridge) (z : Zeroconf) :
  zeroconf b = Some z -> service_info b = None ->
  exists t,
    stop w b = (Ret tt, set_process None b, t)
    /\ zeroconf (set_process None b) = Some z
    /\ ~ In EvZeroconfClose t.
Proof.
  destruct b as [d p n bd pr zc si], w as [ur cr wt]. simpl.
  intros -> ->.
  destruct pr as [h|], wt; eexists; (split; [reflexivity |]);
    (split; [reflexivity |]); simpl; intros H;
    repeat (destruct H as [H | H]; [discriminate H |]); exact H.
Qed.


(** A registrar instance without a service record, which [_start_mdns]
    leaves behind when building the record fails, is not released by
    [stop]. *)
Example stop_keeps_lone_zeroconf :
  (stop stop_env_ok
     {| device := "/dev/cu.usbserial-1"; port := 4403;
        node_id := Some "!3c7f9d4e"; baud := 115200;
        process := None; zeroconf := Some {| zc_id := 0 |};
        service_info := None |}).1.2
  = {| device := "/dev/cu.usbserial-1"; port := 4403;
       node_id := Some "!3c7f9d4e"; baud := 115200;
       process := None; zeroconf := Some {| zc_id := 0 |};
       service_info := None |}.
Proof. reflexivity. Qed.

(** ** The mDNS name *)

(** For a bare identifier, as rendered by the probe, the short id is the
    tail of its hex digits. *)
Lemma mdns_short_id_bare (n : N) :
  mdns_short_id (render_node_id n) = Py.last_chars 4 (Py.format_08x n).
Proof.
  unfold mdns_short_id, render_node_id.
  change ("!" +:+ Py.format_08x n) with (String "!" (Py.format_08x n)).
  simpl. by rewrite remove_char_format_08x.
Qed.

Example mdns_hostname_bare : mdns_hostname "!3c7f9d4e" = "meshtastic_9d4e.local.".
Proof. reflexivity. Qed.

(** C9, evaluated where it fails.  The scan of [mac_host] attaches
    "!3c7f9d4e (Alice)" to the device, the create branch hands that string
    to the Bridge as its [node_id], and [start] registers the service under
    a name whose suffix is "ice)": the tail of the owner's name and the
    closing parenthesis, not hex digits of the identifier. *)
Theorem mdns_name_with_owner :
  find_serial_devices mac_host true None
  = Some [ {| path := "/dev/cu.usbserial-0001";
              description := "USB Serial (CH340/FTDI)";
              node_name := "!3c7f9d4e (Alice)" |} ]
  /\ exists st t,
       create_bridge env_ok (active_device_paths []) 1 PortBlank
         {| bridges := [];
            devices := [ {| path := "/dev/cu.usbserial-0001";
                            description := "USB Serial (CH340/FTDI)";
                            node_name := "!3c7f9d4e (Alice)" |} ];
            need_scan := false |}
       = (Ret (BridgeStarted (Some "meshtastic_ice).local")), st, t)
       /\ t = [ EvStty "/dev/cu.usbserial-0001" 115200;
                EvSpawn 4403 "/dev/cu.usbserial-0001";
                EvLocalIp; EvZeroconfNew;
                EvRegister "meshtastic_ice)._meshtastic._tcp.local."
                           "meshtastic_ice).local." 4403 ].
Proof.
  split; [vm_compute; reflexivity |].
  do 2 eexists. split; vm_compute; reflexivity.
Qed.

(** ** The probe *)

(** An owner name, when one is found, is a non-empty string. *)
Lemma find_owner_truthy (interface : SerialInterface) (my_info : MyInfo)
    (owner : string) :
  find_owner interface my_info = Some owner -> Py.truthy_str (Some owner) = true.
Proof.
  unfold find_owner, owner_from_user. intros Hown.
  assert (Hlocal :
            match localNode interface with
            | Some ln =>
                if Py.truthy_str (node_owner ln) then node_owner ln
                else if Py.truthy_str (node_longName ln) then node_longName ln
                else None
            | None => None
            end = Some owner -> Py.truthy_str (Some owner) = true).
  { destruct (localNode interface) as [ln|]; [| discriminate].
    destruct (Py.truthy_str (node_owner ln)) eqn:Ho; [by intros <- |].
    destruct (Py.truthy_str (node_longName ln)) eqn:Hn; [by intros <- |].
    discriminate. }
  destruct (user my_info) as [u|]; [| exact (Hlocal Hown)].
  destruct (Py.truthy_str (user_longName u)) eqn:Hl.
  { rewrite Hl in Hown. simpl in Hown. by rewrite <- Hown. }
  destruct (Py.truthy_str (user_shortName u)) eqn:Hs.
  { rewrite Hs in Hown. simpl in Hown. by rewrite <- Hown. }
  exact (Hlocal Hown).
Qed.

Section PollBody.
Variables (start : Q) (p : Poll).
Variables (interface : SerialInterface) (my_info : MyInfo) (n : N).
Hypothesis Hobs : observed p = Ret interface.
Hypothesis Hinfo : myInfo interface = Some my_info.
Hypothesis Hnum : my_node_num my_info = Some n.
Hypothesis Hnz : n <> 0%N.

Lemma poll_body_owner (owner : string) :
  find_owner interface my_info = Some owner ->
  poll_body start p
  = Ret (Some (render_node_id n +:+ " (" +:+ owner +:+ ")")).
Proof using Hobs Hinfo Hnum Hnz.
  intros Hown. pose proof (find_owner_truthy _ _ _ Hown) as Htruthy.
  unfold poll_body. rewrite Hobs, Hinfo, Hnum, Hown.
  unfold Py.truthy_num. destruct (N.eqb_spec n 0); [done |].
  cbv beta iota zeta. by rewrite Htruthy.
Qed.

Lemma poll_body_bare :
  find_owner interface my_info = None ->
  poll_body start p
  = if Qltb 5 (t_grace p - start) then Ret (Some (render_node_id n))
    else Ret None.
Proof using Hobs Hinfo Hnum Hnz.
  intros Hown. unfold poll_body. rewrite Hobs, Hinfo, Hnum, Hown.
  unfold Py.truthy_num. destruct (N.eqb_spec n 0); [done | reflexivity].
Qed.
End PollBody.

(** What the lookup of lines 226-253 computes, against what the session
    offers. *)
Lemma truthy_offers (attribute : option string) (s : string) :
  offers attribute s -> Py.truthy_str attribute = true /\ attribute = Some s.
Proof.
  intros [-> Hs]. split; [| done].
  unfold Py.truthy_str. by destruct (String.eqb_spec s "").
Qed.

Lemma falsy_withholds (attribute : option string) :
  withholds attribute -> Py.truthy_str attribute = false.
Proof. by intros [-> | ->]. Qed.

Lemma owner_from_user_silent (my_info : MyInfo) :
  user_silent my_info -> owner_from_user my_info = None.
Proof.
  unfold user_silent, owner_from_user.
  destruct (user my_info) as [u|]; [| done].
  intros [Hl Hs]. by rewrite (falsy_withholds _ Hl), (falsy_withholds _ Hs).
Qed.

Lemma find_owner_available (interface : SerialInterface) (my_info : MyInfo)
    (owner : string) :
  owner_available interface my_info owner ->
  find_owner interface my_info = Some owner.
Proof.
  intros [u Hu Hl | u Hu Hl Hs | ln Hsilent Hln Ho | ln Hsilent Hln Ho Hl].
  - destruct (truthy_offers _ _ Hl) as [Ht He].
    unfold find_owner, owner_from_user. rewrite Hu, Ht, He.
    rewrite <- He at 1. by rewrite Ht.
  - destruct (truthy_offers _ _ Hs) as [Ht He].
    unfold find_owner, owner_from_user.
    rewrite Hu, (falsy_withholds _ Hl), Ht, He.
    rewrite <- He at 1. by rewrite Ht.
  - destruct (truthy_offers _ _ Ho) as [Ht He].
    unfold find_owner. rewrite (owner_from_user_silent _ Hsilent), Hln.
    simpl. by rewrite Ht.
  - destruct (truthy_offers _ _ Hl) as [Ht He].
    unfold find_owner. rewrite (owner_from_user_silent _ Hsilent), Hln.
    simpl. by rewrite (falsy_withholds _ Ho), Ht.
Qed.

Lemma find_owner_unavailable (interface : SerialInterface) (my_info : MyInfo) :
  owner_unavailable interface my_info -> find_owner interface my_info = None.
Proof.
  intros [Hsilent Hlocal]. unfold find_owner.
  rewrite (owner_from_user_silent _ Hsilent). simpl.
  unfold local_node_silent in Hlocal.
  destruct (localNode interface) as [ln|]; [| done].
  destruct Hlocal as [Ho Hl].
  by rewrite (falsy_withholds _ Ho), (falsy_withholds _ Hl).
Qed.

(** The other direction: the lookup finds nothing the session does not
    offer. *)
Lemma find_owner_sound (interface : SerialInterface) (my_info : MyInfo) :
  match find_owner interface my_info with
  | Some owner =>
      owner = "" \/ owner_available interface my_info owner
  | None => owner_unavailable interface my_info
  end.
Proof.
  assert (Hcases : forall a : option string,
             (exists s, offers a s) \/ withholds a).
  { intros [s|]; [| right; by left].
    destruct (String.eqb_spec s "") as [-> | Hs]; [right; by right |].
    left. by exists s. }
  assert (Hsilent :
            (exists owner, owner_from_user my_info = Some owner
                           /\ Py.truthy_str (Some owner) = true
                           /\ owner_available interface my_info owner)
            \/ (owner_from_user my_info = None /\ user_silent my_info)).
  { unfold owner_from_user, user_silent.
    destruct (user my_info) as [u|] eqn:Hu; [| by right].
    destruct (Hcases (user_longName u)) as [[s Hl] | Hl].
    { left. destruct (truthy_offers _ _ Hl) as [Ht He]. exists s.
      rewrite Ht. split; [done |]. split; [by rewrite <- He |].
      by eapply owner_user_longName. }
    rewrite (falsy_withholds _ Hl).
    destruct (Hcases (user_shortName u)) as [[s Hs] | Hs].
    { left. destruct (truthy_offers _ _ Hs) as [Ht He]. exists s.
      rewrite Ht. split; [done |]. split; [by rewrite <- He |].
      by eapply owner_user_shortName. }
    rewrite (falsy_withholds _ Hs). by right. }
  unfold find_owner.
  destruct Hsilent as [(owner & -> & Ht & Hav) | [-> Hus]].
  { rewrite Ht. simpl. by right. }
  simpl. unfold owner_unavailable, local_node_silent.
  destruct (localNode interface) as [ln|] eqn:Hln; [| done].
  destruct (Hcases (node_owner ln)) as [[s Ho] | Ho].
  { destruct (truthy_offers _ _ Ho) as [Ht He]. rewrite Ht, He. right.
    by eapply owner_localNode_owner. }
  rewrite (falsy_withholds _ Ho).
  destruct (Hcases (node_longName ln)) as [[s Hl] | Hl].
  { destruct (truthy_offers _ _ Hl) as [Ht He]. rewrite Ht, He. right.
    by eapply owner_localNode_longName. }
  by rewrite (falsy_withholds _ Hl).
Qed.

Lemma poll_loop_quiet (device_path : string) (timeout : Z) (start last : Q)
    (close : outcome unit) (pre rest : list Poll) :
  Forall (quiet timeout start) pre ->
  poll_loop device_path timeout start last close (pre ++ rest)
  = match poll_loop device_path timeout start last close rest with
    | Some (r, t) => Some (r, (repeat EvSleep (length pre) ++ t)%list)
    | None => None
    end.
Proof.
  induction 1 as [|q pre [Hguard Hbody] _ IH]; simpl.
  - by destruct (poll_loop _ _ _ _ _ rest) as [[r t]|].
  - rewrite Hguard, Hbody, IH.
    by destruct (poll_loop _ _ _ _ _ rest) as [[r t]|].
Qed.

Lemma poll_loop_returns_at (device_path : string) (timeout : Z)
    (start last : Q) (close : outcome unit) (p : Poll) (post : list Poll)
    (r : string) :
  Qltb (t_guard p - start) (inject_Z timeout) = true ->
  poll_body start p = Ret (Some r) ->
  poll_loop device_path timeout start last close (p :: post)
  = Some (close_and_return device_path close (Some r)).
Proof. intros Hguard Hbody. simpl. by rewrite Hguard, Hbody. Qed.

(** The body falls through to the sleep exactly when the session could be
    read and either no non-zero node number is there yet, or no owner is
    there and the grace test does not read more than 5. *)
Lemma poll_body_falls_through (start : Q) (p : Poll) :
  poll_body start p = Ret None
  <-> exists interface,
        observed p = Ret interface
        /\ match myInfo interface with
           | Some my_info =>
               Py.truthy_num (my_node_num my_info) = false
               \/ (find_owner interface my_info = None
                   /\ Qltb 5 (t_grace p - start) = false)
           | None => True
           end.
Proof.
  unfold poll_body. destruct (observed p) as [interface|e].
  - split.
    + intros Hbody. exists interface. split; [done |].
      destruct (myInfo interface) as [my_info|]; [| done].
      destruct (my_node_num my_info) as [n|]; [| by left].
      destruct (Py.truthy_num (Some n)); [| by left]. right.
      destruct (find_owner interface my_info) as [owner|] eqn:Hown.
      * rewrite (find_owner_truthy _ _ _ Hown) in Hbody. discriminate.
      * split; [done |]. by destruct (Qltb 5 _).
    + intros (i & [= <-] & Hcase).
      destruct (myInfo interface) as [my_info|]; [| done].
      destruct (my_node_num my_info) as [n|]; [| done].
      destruct Hcase as [-> | [-> ->]]; [done |].
      by destruct (Py.truthy_num (Some n)).
  - split; [discriminate |]. by intros (i & [=] & _).
Qed.

(** When [interface.close()] raises at the poll that would return an
    identifier, the handler takes over and the probe returns [None]. *)
Lemma probe_close_raises (w : ProbeEnv) (device_path : string) (timeout : Z)
    (pre post : list Poll) (p : Poll) (r : string) (e : Exn) :
  open_result w = Ret tt ->
  session_close_result w = Raise e ->
  polls w = (pre ++ p :: post)%list ->
  Forall (quiet timeout (start_time w)) pre ->
  Qltb (t_guard p - start_time w) (inject_Z timeout) = true ->
  poll_body (start_time w) p = Ret (Some r) ->
  query_meshtastic_info true w device_path timeout
  = Some (None,
          (EvSessionOpen device_path :: repeat EvSleep (length pre)
             ++ [EvSessionClose device_path])%list).
Proof.
  intros Hopen Hclose Hpolls Hpre Hguard Hbody.
  unfold query_meshtastic_info. simpl negb. cbv iota.
  rewrite Hopen, Hpolls, (poll_loop_quiet _ _ _ _ _ _ _ Hpre).
  rewrite (poll_loop_returns_at _ _ _ _ _ _ _ _ Hguard Hbody).
  unfold close_and_return. by rewrite Hclose.
Qed.

(** C6.  Take a probe whose session opened and whose [close()] returns,
    and the first poll at which the loop test still passes (less than
    [timeout] has elapsed) and the body does not fall through; let the
    node number be readable and non-zero there.  If the session names an
    owner there ([myInfo.user.longName], else [myInfo.user.shortName],
    else [localNode.owner], else [localNode.longName], the first that is
    a non-empty string), the probe returns identifier and owner at that
    poll, whatever the clock reads.  If it names none and the grace test
    reads more than 5 since the start, it returns the bare identifier at
    that poll.  Either way it has slept once per earlier poll, closes the
    session, and does not run to the timeout. *)
Theorem probe_two_phase_patience (w : ProbeEnv) (device_path : string)
    (timeout : Z) (pre post : list Poll) (p : Poll)
    (interface : SerialInterface) (my_info : MyInfo) (n : N) :
  open_result w = Ret tt ->
  session_close_result w = Ret tt ->
  polls w = (pre ++ p :: post)%list ->
  Forall (quiet timeout (start_time w)) pre ->
  Qltb (t_guard p - start_time w) (inject_Z timeout) = true ->
  observed p = Ret interface ->
  myInfo interface = Some my_info ->
  my_node_num my_info = Some n ->
  n <> 0%N ->
  (forall owner,
     owner_available interface my_info owner ->
     query_meshtastic_info true w device_path timeout
     = Some (Some (render_node_id n +:+ " (" +:+ owner +:+ ")"),
             (EvSessionOpen device_path :: repeat EvSleep (length pre)
                ++ [EvSessionClose device_path])%list))
  /\ (owner_unavailable interface my_info ->
      Qltb 5 (t_grace p - start_time w) = true ->
      query_meshtastic_info true w device_path timeout
      = Some (Some (render_node_id n),
              (EvSessionOpen device_path :: repeat EvSleep (length pre)
                 ++ [EvSessionClose device_path])%list)).
Proof.
  intros Hopen Hclose Hpolls Hpre Hguard Hobs Hinfo Hnum Hnz.
  unfold query_meshtastic_info. simpl negb. cbv iota.
  rewrite Hopen, Hpolls, (poll_loop_quiet _ _ _ _ _ _ _ Hpre).
  split.
  - intros owner Hown%find_owner_available.
    rewrite (poll_loop_returns_at _ _ _ _ _ _ _ _ Hguard
               (poll_body_owner _ _ _ _ _ Hobs Hinfo Hnum Hnz _ Hown)).
    unfold close_and_return. by rewrite Hclose.
  - intros Hown%find_owner_unavailable Hgrace.
    assert (Hbody : poll_body (start_time w) p = Ret (Some (render_node_id n))).
    { rewrite (poll_body_bare _ _ _ _ _ Hobs Hinfo Hnum Hnz Hown).
      by rewrite Hgrace. }
    rewrite (poll_loop_returns_at _ _ _ _ _ _ _ _ Hguard Hbody).
    unfold close_and_return. by rewrite Hclose.
Qed.

(** On [probe_with_owner] the session names its owner at the first poll,
    at time 0, and the probe returns both at once.  On [probe_bare] no
    owner is named: the first six polls fall through (the sixth reads
    exactly 5 at the grace test) and the seventh, at 6.1, returns the bare
    identifier. *)
Lemma probe_two_phase_patience_witness :
  query_meshtastic_info true probe_with_owner "/dev/cu.usbserial-0001" 10
  = Some (Some "!3c7f9d4e (Alice)",
          [ EvSessionOpen "/dev/cu.usbserial-0001";
            EvSessionClose "/dev/cu.usbserial-0001" ])
  /\ query_meshtastic_info true probe_bare "/dev/cu.usbserial-0001" 10
     = Some (Some "!3c7f9d4e",
             [ EvSessionOpen "/dev/cu.usbserial-0001";
               EvSleep; EvSleep; EvSleep; EvSleep; EvSleep; EvSleep;
               EvSessionClose "/dev/cu.usbserial-0001" ]).
Proof.
  split.
  - refine (proj1 (probe_two_phase_patience probe_with_owner
                     "/dev/cu.usbserial-0001" 10 [] []
                     {| t_guard := 0;
                        observed :=
                          Ret {| myInfo :=
                                   Some {| my_node_num := Some 1014996302%N;
                                           user :=
                                             Some {| user_longName := Some "Alice";
                                                     user_shortName := None |} |};
                                 localNode := None |};
                        t_grace := 0 |}
                     _ _ 1014996302%N _ _ _ _ _ _ _ _ _) "Alice" _);
      try reflexivity.
    + constructor.
    + lia.
    + eapply owner_user_longName; [reflexivity |]. split; [reflexivity | done].
  - refine (proj2 (probe_two_phase_patience probe_bare
                     "/dev/cu.usbserial-0001" 10
                     (take 6 (polls probe_bare))
                     (drop 7 (polls probe_bare))
                     {| t_guard := 106; observed := Ret bare_interface;
                        t_grace := 106.1 |}
                     bare_interface
                     {| my_node_num := Some 1014996302%N; user := None |}
                     1014996302%N _ _ _ _ _ _ _ _ _) _ _);
      try reflexivity.
    + repeat constructor.
    + lia.
    + split; exact I.
Defined.

(** The probe returns on every script that ends past the timeout. *)
Lemma poll_loop_returns (device_path : string) (timeout : Z) (start last : Q)
    (close : outcome unit) (script : list Poll) :
  Qltb (last - start) (inject_Z timeout) = false ->
  exists res, poll_loop device_path timeout start last close script = Some res.
Proof.
  intros Hlast. induction script as [|p rest [[r t] IH]]; simpl.
  - rewrite Hlast. by eauto.
  - destruct (Qltb (t_guard p - start) (inject_Z timeout)); [| by eauto].
    destruct (poll_body start p) as [[s|]|e]; try by eauto.
    rewrite IH. by eauto.
Qed.

Lemma query_meshtastic_info_returns (available : bool) (w : ProbeEnv)
    (device_path : string) (timeout : Z) :
  Qltb (t_last w - start_time w) (inject_Z timeout) = false ->
  exists res, query_meshtastic_info available w device_path timeout = Some res.
Proof.
  intros Hlast. unfold query_meshtastic_info.
  destruct available; simpl; [| by eauto].
  destruct (open_result w); [| by eauto].
  destruct (poll_loop_returns device_path timeout _ _ (session_close_result w)
              (polls w) Hlast)
    as [[[r|e] t] ->]; by eauto.
Qed.

(** Whenever the loop returns a value, it has closed the session just
    before. *)
Lemma poll_loop_closes (device_path : string) (timeout : Z) (start last : Q)
    (close : outcome unit) (script : list Poll) (r : option string)
    (t : list Event) :
  poll_loop device_path timeout start last close script = Some (Ret r, t) ->
  List.last t EvSleep = EvSessionClose device_path.
Proof.
  revert t. unfold close_and_return.
  induction script as [|p rest IH]; simpl; intros t.
  - destruct (Qltb _ _); [discriminate |]. by intros [= _ <-].
  - destruct (Qltb _ _); [| by intros [= _ <-]].
    destruct (poll_body start p) as [[s|]|e]; [by intros [= _ <-] | | discriminate].
    destruct (poll_loop _ _ _ _ _ rest) as [[r' t']|]; [| discriminate].
    intros [= -> <-]. specialize (IH t' eq_refl).
    destruct t' as [|ev t']; [discriminate | exact IH].
Qed.

(** C7, evaluated where it fails.  The session of [probe_raising] opens,
    and reading it raises at the first poll: the probe returns [None] and
    the session it opened is never closed. *)
Theorem probe_exception_leaves_session_open :
  query_meshtastic_info true probe_raising "/dev/cu.usbserial-0001" 10
  = Some (None, [EvSessionOpen "/dev/cu.usbserial-0001"]).
Proof. reflexivity. Qed.

(** ** The port allocator *)

Lemma next_port_spec (used : gset Z) (p : Z) :
  p <= next_port used p
  /\ (next_port used p ∉ used)
  /\ (forall q, p <= q -> q ∉ used -> next_port used p <= q).
Proof.
  funelim (next_port used p).
  - match goal with IH : _ /\ _ /\ _ |- _ => destruct IH as (Hle & Hfree & Hmin) end.
    split; [lia |]. split; [done |].
    intros q Hq Hfresh. apply Hmin; [| done].
    assert (q <> p) by (intros ->; done). lia.
  - split; [lia |]. split; [done |]. intros q Hq _. lia.
Qed.

Lemma elem_of_used_ports (bridges : list Bridge) (q : Z) :
  q ∈ used_ports bridges
  <-> exists b, b ∈ bridges /\ is_running b = true /\ port b = q.
Proof.
  unfold used_ports. rewrite elem_of_list_to_set, list_elem_of_fmap.
  split.
  - intros (b & -> & Hb). apply list_elem_of_filter in Hb as [Hrun Hin].
    by eauto.
  - intros (b & Hin & Hrun & <-). exists b. split; [done |].
    by apply list_elem_of_filter.
Qed.

(** C2.  [get_next_available_port] returns a port that is at least the
    base, is not in the set of ports of the bridges whose liveness check
    passes, is the port of no such bridge, and is the least integer with
    these properties. *)
Theorem get_next_available_port_least (start_port : Z) (bridges : list Bridge) :
  start_port <= get_next_available_port start_port bridges
  /\ (get_next_available_port start_port bridges ∉ used_ports bridges)
  /\ (forall b, b ∈ bridges -> is_running b = true ->
      port b <> get_next_available_port start_port bridges)
  /\ (forall q, start_port <= q ->
      (forall b, b ∈ bridges -> is_running b = true -> port b <> q) ->
      get_next_available_port start_port bridges <= q).
Proof.
  unfold get_next_available_port.
  destruct (next_port_spec (used_ports bridges) start_port)
    as (Hle & Hfree & Hmin).
  split; [done |]. split; [done |]. split.
  - intros b Hin Hrun Heq. apply Hfree, elem_of_used_ports. by eauto.
  - intros q Hq Hfresh. apply Hmin; [done |].
    rewrite elem_of_used_ports. intros (b & Hin & Hrun & Heq).
    by apply (Hfresh b).
Qed.

Example next_port_skips_live :
  get_next_available_port 4403
    [ set_process (Some {| pid := 1; returncode := None |})
        (Bridge_init "/dev/cu.usbserial-0001" 4403 None);
      set_process (Some {| pid := 2; returncode := Some 0 |})
        (Bridge_init "/dev/cu.usbserial-0002" 4404 None) ]
  = 4404.
Proof. vm_compute. reflexivity. Qed.

(** ** The scanner *)

Lemma darwin_candidate_Some (skip_devices : gset string) (p : string)
    (d : SerialDevice) :
  darwin_candidate skip_devices p = Some d ->
  path d = p
  /\ (p ∉ skip_devices)
  /\ skip_pattern_match p = false
  /\ Py.startswith p "/dev/cu." = true.
Proof.
  unfold darwin_candidate.
  destruct (decide (p ∈ skip_devices)); [discriminate |].
  destruct (skip_pattern_match p); [discriminate |].
  destruct (Py.startswith p "/dev/cu.") eqn:Hcu; [| discriminate].
  by intros [= <-].
Qed.

(** What the macOS branch collects: only [cu.] paths, none of them
    excluded, none of them matching the skip pattern. *)
Lemma enumerate_devices_darwin (h : Host) (skip_devices : gset string)
    (d : SerialDevice) :
  sys_platform h = "darwin" ->
  d ∈ enumerate_devices h skip_devices ->
  (path d ∉ skip_devices)
  /\ skip_pattern_match (path d) = false
  /\ Py.startswith (path d) "/dev/cu." = true.
Proof.
  intros Hplat. unfold enumerate_devices. rewrite Hplat, String.eqb_refl.
  rewrite list_elem_of_In, in_flat_map.
  intros (pattern & _ & Hd). apply list_elem_of_In, list_elem_of_omap in Hd.
  destruct Hd as (p & _ & Hcand).
  apply darwin_candidate_Some in Hcand as (<- & ? & ? & ?). done.
Qed.

Lemma query_device_path (h : Host) (d d' : SerialDevice) :
  query_device h d = Some d' ->
  path d' = path d /\ description d' = description d.
Proof.
  unfold query_device.
  destruct (query_meshtastic_info _ _ _ _) as [[node_id t]|]; [| discriminate].
  destruct (Py.truthy_str node_id); by intros [= <-].
Qed.

(** The query loop changes no path: the scan returns the devices it
    collected, in order, and it returns whenever every probe script runs
    past the ten-second timeout. *)
Lemma find_serial_devices_paths (h : Host) (query_names : bool)
    (skip_devices : option (gset string)) :
  (forall p, Qltb (t_last (probe_env h p) - start_time (probe_env h p))
                  (inject_Z 10) = false) ->
  exists devs,
    find_serial_devices h query_names skip_devices = Some devs
    /\ path <$> devs = path <$> enumerate_devices h (default ∅ skip_devices).
Proof.
  intros Hscripts. unfold find_serial_devices.
  destruct (_ && _ && _); [| by eauto].
  destruct (mapM (query_device h)
              (enumerate_devices h (default ∅ skip_devices))) as [devs|] eqn:Hm.
  - exists devs. split; [done |]. apply mapM_Some in Hm.
    induction Hm as [|d d' l k Hq _ IH]; [done |].
    simpl. f_equal; [| done]. by apply query_device_path in Hq as [-> _].
  - exfalso. apply eq_None_not_Some in Hm. apply Hm, mapM_is_Some_2.
    apply Forall_forall. intros d _. unfold compose, query_device.
    destruct (query_meshtastic_info_returns (MESHTASTIC_AVAILABLE h)
                (probe_env h (path d)) (path d) 10 (Hscripts (path d)))
      as [[node_id t] ->].
    by destruct (Py.truthy_str node_id).
Qed.

Lemma startswith_String_inv (a : ascii) (p s : string) :
  Py.startswith s (String a p) = true ->
  exists s', s = String a s' /\ Py.startswith s' p = true.
Proof.
  destruct s as [|b s]; simpl; [discriminate |].
  intros [Hab Hrest]%andb_true_iff. apply Ascii.eqb_eq in Hab as ->. by eauto.
Qed.

Lemma cu_is_not_tty (p : string) :
  Py.startswith p "/dev/cu." = true -> Py.startswith p "/dev/tty." = false.
Proof.
  intros H.
  do 6 (apply startswith_String_inv in H as (? & -> & H)).
  reflexivity.
Qed.

(** C10.  On macOS, whenever every probe script runs past the timeout,
    the scan returns, and every device it returns has a path that begins
    with "/dev/cu."; no path that begins with "/dev/tty." is among
    them. *)
Theorem darwin_devices_are_cu (h : Host) (query_names : bool)
    (skip_devices : option (gset string)) :
  sys_platform h = "darwin" ->
  (forall p, Qltb (t_last (probe_env h p) - start_time (probe_env h p))
                  (inject_Z 10) = false) ->
  exists devs,
    find_serial_devices h query_names skip_devices = Some devs
    /\ (forall d, d ∈ devs -> Py.startswith (path d) "/dev/cu." = true)
    /\ (forall d, d ∈ devs -> Py.startswith (path d) "/dev/tty." = false).
Proof.
  intros Hplat Hscripts.
  destruct (find_serial_devices_paths h query_names skip_devices Hscripts)
    as (devs & Hfind & Hpaths).
  exists devs. split; [done |].
  assert (Hcu : forall d, d ∈ devs -> Py.startswith (path d) "/dev/cu." = true).
  { intros d Hd.
    assert (Hp : path d ∈ path <$> devs) by (apply list_elem_of_fmap; eauto).
    rewrite Hpaths in Hp. apply list_elem_of_fmap in Hp as (d0 & -> & Hd0).
    by apply (enumerate_devices_darwin h _ d0 Hplat) in Hd0 as (_ & _ & ?). }
  split; [exact Hcu |].
  intros d Hd. by apply cu_is_not_tty, Hcu.
Qed.

(** On [mac_host] the adapter shows up as a [tty.] and as a [cu.] path;
    only the second is returned. *)
Lemma darwin_devices_are_cu_witness :
  exists devs,
    find_serial_devices mac_host true None = Some devs
    /\ (forall d, d ∈ devs -> Py.startswith (path d) "/dev/cu." = true)
    /\ (forall d, d ∈ devs -> Py.startswith (path d) "/dev/tty." = false).
Proof.
  apply (darwin_devices_are_cu mac_host true None);
    [reflexivity | intros p; reflexivity].
Defined.

(** On macOS the scan drops every excluded path and every path the skip
    pattern matches. *)
Lemma darwin_scan_filters (h : Host) (query_names : bool)
    (skip_devices : gset string) (devs : list SerialDevice) (d : SerialDevice) :
  sys_platform h = "darwin" ->
  find_serial_devices h query_names (Some skip_devices) = Some devs ->
  d ∈ devs ->
  (path d ∉ skip_devices) /\ skip_pattern_match (path d) = false.
Proof.
  intros Hplat Hfind Hd.
  assert (Hp : exists d0, path d = path d0
                          /\ d0 ∈ enumerate_devices h skip_devices).
  { unfold find_serial_devices in Hfind. simpl default in Hfind.
    destruct (_ && _ && _).
    - apply mapM_Some in Hfind.
      apply list_elem_of_lookup in Hd as [i Hi].
      destruct (Forall2_lookup_r _ _ _ _ _ Hfind Hi) as (d0 & Hi0 & Hq).
      exists d0. split; [by apply query_device_path in Hq as [-> _] |].
      apply list_elem_of_lookup. by eauto.
    - injection Hfind as <-. by eauto. }
  destruct Hp as (d0 & -> & Hd0).
  by apply (enumerate_devices_darwin h _ d0 Hplat) in Hd0 as (? & ? & _).
Qed.

(** The skip pattern, which starts with "/dev/cu.", matches none of the
    [tty] paths. *)
Lemma skip_pattern_not_tty (p : string) :
  Py.startswith p "/dev/tty" = true -> skip_pattern_match p = false.
Proof.
  intros H.
  do 6 (apply startswith_String_inv in H as (? & -> & H)).
  reflexivity.
Qed.

(** C3, evaluated where it fails.  On a host that is not macOS the scan
    never looks at [skip_devices]: with a live bridge on "/dev/ttyUSB0",
    and that path in the set handed to the scan as the menu loop does, the
    scan returns the device (and has probed it). *)
Theorem linux_scan_returns_excluded_path :
  active_device_paths linux_bridges = {[ "/dev/ttyUSB0" ]}
  /\ find_serial_devices linux_host true (Some (active_device_paths linux_bridges))
     = Some [ {| path := "/dev/ttyUSB0";
                 description := "USB Serial Adapter";
                 node_name := "!3c7f9d4e (Alice)" |} ]
  /\ scan_if_needed linux_host
       {| bridges := linux_bridges; devices := []; need_scan := true |}
     = Some {| bridges := linux_bridges;
               devices := [ {| path := "/dev/ttyUSB0";
                               description := "USB Serial Adapter";
                               node_name := "!3c7f9d4e (Alice)" |} ];
               need_scan := false |}.
Proof.
  split; [| split].
  - unfold active_device_paths, linux_bridges. simpl. set_solver.
  - reflexivity.
  - reflexivity.
Qed.

(** ** The list of bridges *)

Lemma elem_of_active_device_paths (bs : list Bridge) (p : string) :
  p ∈ active_device_paths bs
  <-> exists b, b ∈ bs /\ device b = p /\ is_running b = true.
Proof.
  unfold active_device_paths. rewrite elem_of_list_to_set, list_elem_of_fmap.
  split.
  - intros (b & -> & Hb). apply list_elem_of_filter in Hb as [Hrun Hin].
    by eauto.
  - intros (b & Hin & <- & Hrun). exists b. split; [done |].
    by apply list_elem_of_filter.
Qed.

(** When a live bridge holds the path, [existing_bridge] finds one. *)
Lemma existing_bridge_found (bs : list Bridge) (p : string) :
  p ∈ active_device_paths bs ->
  exists b, existing_bridge p bs = Some b
            /\ b ∈ bs /\ device b = p /\ is_running b = true.
Proof.
  rewrite elem_of_active_device_paths. intros (b0 & Hin & Hdev & Hrun).
  unfold existing_bridge.
  destruct (filter (fun b => device b = p /\ is_running b = true) bs)
    as [|b l] eqn:Hf.
  - assert (Hb0 : b0 ∈ filter (fun b => device b = p /\ is_running b = true) bs)
      by (by apply list_elem_of_filter).
    rewrite Hf in Hb0. by apply not_elem_of_nil in Hb0.
  - exists b. split; [done |].
    assert (Hb : b ∈ filter (fun b => device b = p /\ is_running b = true) bs)
      by (rewrite Hf; left).
    apply list_elem_of_filter in Hb as [[? ?] ?]. done.
Qed.

(** The loop over the bridges: it returns, stops the running bridges with
    the calls [stop] makes on each, in order, passes over the others
    without a call, and leaves no bridge running. *)
Lemma stop_running_from (w : nat -> StopEnv) (i : nat) (bs : list Bridge) :
  exists bs',
    for_each (fun i b => when (is_running b) (stop (w i))) i bs
    = (Ret tt, bs',
       concat (imap (fun j b => if is_running b
                                then (stop (w (i + j)%nat) b).2 else [])
                    bs))
    /\ Forall (fun b => is_running b = false) bs'.
Proof.
  unfold when. revert i. induction bs as [|b bs IH]; intros i; simpl.
  { exists []. by split. }
  destruct (IH (S i)) as (bs' & Hrest & Hdead).
  rewrite Nat.add_0_r.
  assert (Himap :
            imap ((fun j b => if is_running b
                              then (stop (w (i + j)%nat) b).2 else []) ∘ S) bs
            = imap (fun j b => if is_running b
                               then (stop (w (S i + j)%nat) b).2 else []) bs).
  { apply imap_ext. intros j x _. simpl. by rewrite Nat.add_succ_r. }
  rewrite Himap.
  destruct (is_running b) eqn:Hrun.
  - destruct (stop_returns (w i) b) as [t Hstop]. rewrite Hstop, Hrest. simpl.
    eexists. split; [reflexivity |]. constructor; [| done].
    unfold is_running. by destruct (registered b).
  - unfold_eff. rewrite Hrest. simpl.
    eexists. split; [reflexivity |]. by constructor.
Qed.

(** C4, as the code has it.  The stop-all branch calls [stop] on the
    bridges whose liveness check passes at that moment, in order, and on no
    other: its calls are those of [stop] on each running bridge, and a
    bridge that is not running contributes none.  It then clears the list
    and asks for a rescan. *)
Theorem stop_all_stops_running_bridges (w : nat -> StopEnv) (st : Menu) :
  stop_all w st
  = (Ret AllBridgesStopped,
     {| bridges := []; devices := devices st; need_scan := true |},
     concat (imap (fun j b => if is_running b then (stop (w j) b).2 else [])
                  (bridges st))).
Proof.
  destruct (stop_running_from w 0 (bridges st)) as (bs' & Hloop & _).
  unfold stop_all, on_bridges, stop_running_bridges. unfold_eff.
  rewrite Hloop. simpl. by rewrite !app_nil_r.
Qed.

(** The claim C4 fails on a bridge whose subprocess has exited while it
    still holds its registration: [stop] on it would unregister the service
    and reap the process, and the stop-all branch makes no call at all
    before it drops the bridge from the list. *)
Lemma stop_all_skips_exited_bridge :
  is_running exited_bridge = false
  /\ registered exited_bridge = true
  /\ (stop stop_env_ok exited_bridge).2
     = [ EvUnregister "meshtastic_9d4e._meshtastic._tcp.local.";
         EvZeroconfClose; EvTerminate 1; EvWait 1 ]
  /\ stop_all (fun _ => stop_env_ok)
       {| bridges := [exited_bridge]; devices := []; need_scan := false |}
     = (Ret AllBridgesStopped,
        {| bridges := []; devices := []; need_scan := true |}, []).
Proof. repeat split; vm_compute; reflexivity. Qed.

(** C1, as the code has it.  Let the user pick a listed device, and let
    [active] be the set of paths held by live bridges that was built
    before the prompt.  If the path is in that set and a bridge on it is
    still running when the choice is processed, the create branch
    refuses, reports the port of a live bridge on that path, and changes
    nothing.  If the path is not in that set (bridges that have stopped
    do not count), a Bridge is constructed on the requested port (the
    typed one, or the next available one for a blank input) and started,
    whether or not a live bridge holds that port: the branch makes the
    calls of [start], appends the Bridge when [start] returns true and
    reports a failure otherwise. *)
Theorem create_bridge_checks_device_only (w : StartEnv) (active : gset string)
    (st : Menu) (n : N) (pin : PortInput) (dev : SerialDevice) (p : Z) :
  (0 < n)%N ->
  devices st !! Z.to_nat (Z.of_N n - 1) = Some dev ->
  (path dev ∈ active ->
   (exists b, b ∈ bridges st /\ device b = path dev /\ is_running b = true) ->
   exists b,
     b ∈ bridges st /\ device b = path dev /\ is_running b = true
     /\ create_bridge w active n pin st = (Ret (AlreadyRunning (port b)), st, []))
  /\ (path dev ∉ active ->
      pin = PortInt p
      \/ (pin = PortBlank /\ p = get_next_available_port 4403 (bridges st)) ->
      exists ok b' t r st',
        start w (Bridge_init (path dev) p (Some (node_name dev)))
        = (Ret ok, b', t)
        /\ create_bridge w active n pin st = (Ret r, st', t)
        /\ bridges st' = (if ok then bridges st ++ [b'] else bridges st)%list
        /\ devices st' = devices st
        /\ (ok = true -> exists m, r = BridgeStarted m)
        /\ (ok = false -> r = FailedToStart)).
Proof.
  intros Hn Hdev.
  assert (Hrange : ((0 <=? Z.of_N n - 1)%Z
                    && (Z.of_N n - 1 <? Z.of_nat (length (devices st)))%Z)
                   = true).
  { apply lookup_lt_Some in Hdev. apply andb_true_iff. split.
    - apply Z.leb_le. lia.
    - apply Z.ltb_lt. lia. }
  split.
  - intros Hact Hheld. apply elem_of_active_device_paths in Hheld.
    destruct (existing_bridge_found _ _ Hheld) as (b & Hex & Hin & Hd & Hrun).
    exists b. repeat (split; [done |]).
    unfold create_bridge. unfold_eff. rewrite Hrange, Hdev.
    destruct (decide _) as [_ | Hnot]; [| done]. by rewrite Hex.
  - intros Hnot Hpin.
    assert (Hport : read_port (get_next_available_port 4403 (bridges st)) pin
                    = Ret (Some p)).
    { by destruct Hpin as [-> | [-> ->]]. }
    unfold create_bridge. unfold_eff. rewrite Hrange, Hdev.
    destruct (decide _) as [Hin | _]; [done |]. rewrite Hport.
    unfold on_object.
    destruct (start_cases w) as [(h & Hstty & Hpopen) | Hfail].
    + destruct (start_spawned w (Bridge_init (path dev) p (Some (node_name dev)))
                  h Hstty Hpopen) as (b' & t & -> & _ & _).
      exists true, b', t. do 2 eexists. split; [done |]. simpl.
      rewrite !app_nil_r. split; [reflexivity |].
      split; [done |]. split; [done |]. split; [by eauto | discriminate].
    + destruct (start_not_spawned w
                  (Bridge_init (path dev) p (Some (node_name dev))) Hfail)
        as (t & -> & _).
      exists false, (Bridge_init (path dev) p (Some (node_name dev))), t.
      do 2 eexists. split; [done |]. simpl. rewrite !app_nil_r.
      split; [reflexivity |]. split; [done |]. split; [done |].
      split; [discriminate | done].
Qed.

(** On [menu_one_live] the first device is bridged, the bridge was
    running when the menu was shown and still is: picking it is refused.
    The second device is free, and the user asks for port 4403, which the
    live bridge of the first device holds: the Bridge is constructed and
    started. *)
Lemma create_bridge_checks_device_only_witness :
  (exists b,
     b ∈ bridges menu_one_live /\ device b = "/dev/cu.usbserial-0001"
     /\ is_running b = true
     /\ create_bridge env_ok (active_device_paths (bridges menu_one_live)) 1
          PortBlank menu_one_live
        = (Ret (AlreadyRunning (port b)), menu_one_live, []))
  /\ exists ok b' t r st',
       start env_ok (Bridge_init "/dev/cu.usbserial-0002" 4403 (Some ""))
       = (Ret ok, b', t)
       /\ create_bridge env_ok (active_device_paths (bridges menu_one_live)) 2
            (PortInt 4403) menu_one_live
          = (Ret r, st', t)
       /\ bridges st'
          = (if ok then bridges menu_one_live ++ [b']
             else bridges menu_one_live)%list
       /\ devices st' = devices menu_one_live
       /\ (ok = true -> exists m, r = BridgeStarted m)
       /\ (ok = false -> r = FailedToStart).
Proof.
  split.
  - refine (proj1 (create_bridge_checks_device_only env_ok
                     (active_device_paths (bridges menu_one_live))
                     menu_one_live 1 PortBlank
                     {| path := "/dev/cu.usbserial-0001";
                        description := "USB Serial (CH340/FTDI)";
                        node_name := "!3c7f9d4e" |}
                     0 _ _) _ _).
    + reflexivity.
    + reflexivity.
    + apply (bool_decide_unpack _). vm_compute. exact I.
    + exists started_bridge. split; [apply list_elem_of_singleton; reflexivity |].
      split; reflexivity.
  - refine (proj2 (create_bridge_checks_device_only env_ok
                     (active_device_paths (bridges menu_one_live))
                     menu_one_live 2 (PortInt 4403)
                     {| path := "/dev/cu.usbserial-0002";
                        description := "USB Serial (CH340/FTDI)";
                        node_name := "" |}
                     4403 _ _) _ _).
    + reflexivity.
    + reflexivity.
    + apply (bool_decide_unpack _). vm_compute. exact I.
    + left. reflexivity.
Defined.

(** The claim C1 fails on the port: with a live bridge on 4403, a request
    for a bridge on port 4403 for another device is not refused.  The
    Bridge is started and appended, and two live bridges hold 4403. *)
Lemma create_bridge_accepts_port_in_use :
  port <$> filter (fun b => is_running b = true) (bridges menu_one_live) = [4403]
  /\ exists st' t,
       create_bridge env_ok (active_device_paths (bridges menu_one_live)) 2
         (PortInt 4403) menu_one_live
       = (Ret (BridgeStarted None), st', t)
       /\ port <$> filter (fun b => is_running b = true) (bridges st')
          = [4403; 4403].
Proof.
  split; [reflexivity |].
  do 2 eexists. split; vm_compute; reflexivity.
Qed.

(** The signal handler and the quit branches run the same loop: they
    return exit code 0, leave no bridge running, and keep the list. *)
Lemma signal_handler_stops_running_bridges (w : nat -> StopEnv)
    (bs : list Bridge) :
  exists bs',
    signal_handler w bs
    = (Ret 0, bs',
       concat (imap (fun j b => if is_running b then (stop (w j) b).2 else [])
                    bs))
    /\ Forall (fun b => is_running b = false) bs'.
Proof.
  destruct (stop_running_from w 0 bs) as (bs' & Hloop & Hdead).
  exists bs'. split; [| done].
  unfold signal_handler, stop_running_bridges. unfold_eff.
  rewrite Hloop. simpl. by rewrite app_nil_r.
Qed.

(** [start] sets a service record only after it has set the registrar, so
    on every Bridge it has started [stop] leaves no service record. *)
Lemma start_pairs_handles (w : StartEnv) (dev : string) (p : Z)
    (nid : option string) :
  service_info (start w (Bridge_init dev p nid)).1.2 = None
  \/ registered (start w (Bridge_init dev p nid)).1.2 = true.
Proof.
  unfold start, _start_mdns. unfold_eff. simpl.
  destruct (stty_result w) as [[]|]; [| by left].
  destruct (popen_result w) as [h|]; [| by left].
  destruct (ZEROCONF_AVAILABLE w && Py.truthy_str nid); [| by left].
  destruct nid as [s|]; [| by left].
  destruct (local_ip_result w) as [ip|]; [| by left].
  destruct (zeroconf_result w) as [zc|]; [| by left].
  destruct (inet_aton_ok w); [| by left].
  destruct (register_result w) as [[]|]; by right.
Qed.

Lemma stop_clears_service_record (w : StopEnv) (b : Bridge) :
  service_info b = None \/ registered b = true ->
  service_info (stop w b).1.2 = None.
Proof.
  destruct (stop_returns w b) as [t ->]. simpl.
  intros [Hnone | Hreg]; [| by rewrite Hreg].
  by destruct (registered b).
Qed.

(** * Further properties of the code *)

(** ** Bridge: what [start] and [stop] call, and how they compose *)

Ltac destruct_start_env w :=
  destruct w as [zc_available stty popen local_ip new_zc aton register];
  destruct zc_available, stty as [[]|?], popen as [?|?], local_ip as [?|?],
    new_zc as [?|?], aton, register as [[]|?].

(** [start] changes none of the fields set by the constructor. *)
Lemma start_keeps_identity (w : StartEnv) (b : Bridge) :
  device (start w b).1.2 = device b
  /\ port (start w b).1.2 = port b
  /\ node_id (start w b).1.2 = node_id b
  /\ baud (start w b).1.2 = baud b.
Proof.
  destruct b as [d p [[|c nid]|] bd pr zc si]; destruct_start_env w; done.
Qed.

(** X1.  Every call [start] makes is accounted for by its inputs: it
    spawns only after the stty call succeeded, and only for its own port
    and device; it registers a service only when the zeroconf library is
    there, the node id is a non-empty string and the spawn succeeded, and
    then under the host name derived from that node id and for its own
    port. *)
Theorem start_call_discipline (w : StartEnv) (b : Bridge) :
  (forall q d, In (EvSpawn q d) (start w b).2 ->
     stty_result w = Ret tt /\ q = port b /\ d = device b)
  /\ (forall name server q, In (EvRegister name server q) (start w b).2 ->
        ZEROCONF_AVAILABLE w = true
        /\ (exists h, popen_result w = Ret h)
        /\ q = port b
        /\ exists nid, node_id b = Some nid /\ nid <> ""
                       /\ server = mdns_hostname nid).
Proof.
  destruct b as [d p [[|c nid]|] bd pr zc si]; destruct_start_env w;
    (split;
     [ intros q0 d0 Hin | intros name server q0 Hin ];
     simpl in Hin;
     repeat (destruct Hin as [Hin | Hin]; [try discriminate Hin |]);
     try contradiction;
     try (injection Hin as <- <-; done);
     try (injection Hin as <- <- <-;
          split; [done |]; split; [by eauto |]; split; [done |];
          eexists; split; [reflexivity |]; split; [discriminate | reflexivity])).
Qed.

(** X2.  [start] followed by [stop] gives back the Bridge as it was
    constructed, except in one case: when the registrar was created and
    building the service record then failed, the registrar handle
    stays. *)
Theorem start_then_stop (w : StartEnv) (w' : StopEnv) (dev : string) (p : Z)
    (nid : option string) :
  (inet_aton_ok w = true ->
   (stop w' (start w (Bridge_init dev p nid)).1.2).1.2 = Bridge_init dev p nid)
  /\ ((stop w' (start w (Bridge_init dev p nid)).1.2).1.2 = Bridge_init dev p nid
      \/ exists z,
           zeroconf_result w = Ret z /\ inet_aton_ok w = false
           /\ ZEROCONF_AVAILABLE w = true /\ Py.truthy_str nid = true
           /\ (stop w' (start w (Bridge_init dev p nid)).1.2).1.2
              = set_zeroconf (Some z) (Bridge_init dev p nid)).
Proof.
  destruct w' as [[[]|?] [[]|?] []];
    destruct nid as [[|c nid]|]; destruct_start_env w;
    (split;
     [ intros Haton; first [discriminate Haton | reflexivity]
     | first [ left; reflexivity
             | right; eexists; repeat split; reflexivity ] ]).
Qed.

(** Case analysis on membership in an explicit list of calls. *)
Ltac split_in H :=
  repeat (destruct H as [H | H]; [try discriminate H |]);
  try contradiction.

(** X3.  The calls of [stop] come in a fixed order.  A service is
    unregistered only when both registration handles are set, and then
    before anything else.  The subprocess is killed exactly when there is a
    handle and the three-second wait timed out, and then as the last call,
    right after it was asked to terminate and waited for. *)
Theorem stop_call_order (w : StopEnv) (b : Bridge) :
  (forall name, In (EvUnregister name) (stop w b).2 ->
     registered b = true /\ exists rest, (stop w b).2 = EvUnregister name :: rest)
  /\ (forall n, In (EvKill n) (stop w b).2 <->
        wait_timed_out w = true /\ exists h, process b = Some h /\ pid h = n)
  /\ (forall n, In (EvKill n) (stop w b).2 ->
        exists before,
          (stop w b).2 = (before ++ [EvTerminate n; EvWait n; EvKill n])%list).
Proof.
  destruct b as [d p nid bd [[n0 rc]|] [z|] [info|]];
    destruct w as [[[]|?] [[]|?] []];
    (split;
     [ intros name Hin; simpl in Hin; split_in Hin;
       (injection Hin as <-; split; [reflexivity | eexists; reflexivity])
     | split;
       [ intros n; split;
         [ intros Hin; simpl in Hin; split_in Hin;
           (injection Hin as <-;
            split; [reflexivity | eexists; split; reflexivity])
         | intros [Ht (h & Hh & Hp)]; simpl in Ht, Hh;
           first [ discriminate Ht | discriminate Hh
                 | injection Hh as <-; simpl in Hp; subst n; simpl; tauto ] ]
       | intros n Hin; simpl in Hin; split_in Hin;
         (injection Hin as <-;
          first [ exists []; reflexivity
                | eexists [_]; reflexivity
                | eexists [_; _]; reflexivity ]) ] ]).
Qed.

(** ** The registered names *)

Lemma length_append (s t : string) :
  String.length (s +:+ t) = (String.length s + String.length t)%nat.
Proof.
  induction s as [|c s IH]; [done |].
  change (String c s +:+ t) with (String c (s +:+ t)). simpl. by rewrite IH.
Qed.

Lemma substring_append_l (s t : string) :
  String.substring 0 (String.length s) (s +:+ t) = s.
Proof.
  induction s as [|c s IH].
  - by destruct t.
  - change (String c s +:+ t) with (String c (s +:+ t)). simpl. by rewrite IH.
Qed.

(** Characters and bytes.  A string is plain when it has as many
    characters as bytes: every character is one byte long. *)
Lemma code_points_le (s : string) : (Py.code_points s <= String.length s)%nat.
Proof. induction s as [|c s IH]; simpl; [lia |]. destruct (Py.continuation c); lia. Qed.

Lemma code_points_append (s t : string) :
  Py.code_points (s +:+ t) = (Py.code_points s + Py.code_points t)%nat.
Proof.
  induction s as [|c s IH]; [done |].
  change (String c s +:+ t) with (String c (s +:+ t)). simpl. rewrite IH. lia.
Qed.

Lemma plain_String (c : ascii) (s : string) :
  Py.code_points (String c s) = String.length (String c s) ->
  Py.continuation c = false /\ Py.code_points s = String.length s.
Proof.
  simpl. pose proof (code_points_le s).
  destruct (Py.continuation c); [lia |]. split; [done | lia].
Qed.

Lemma plain_at_boundary (s : string) :
  Py.code_points s = String.length s -> Py.at_boundary s = true.
Proof.
  destruct s as [|c s]; [done |]. intros [Hc _]%plain_String. simpl.
  by rewrite Hc.
Qed.

Lemma last_chars_whole (n : nat) (s : string) :
  (Py.code_points s <= n)%nat -> Py.at_boundary s = true ->
  Py.last_chars n s = s.
Proof.
  intros Hle%Nat.leb_le Hb.
  destruct s as [|c s]; unfold Py.last_chars; fold Py.last_chars;
    by rewrite Hle, Hb.
Qed.

Lemma last_chars_step (n : nat) (c : ascii) (s : string) :
  (n < Py.code_points (String c s))%nat \/ Py.continuation c = true ->
  Py.last_chars n (String c s) = Py.last_chars n s.
Proof.
  intros Hcase. unfold Py.last_chars at 1; fold Py.last_chars.
  destruct Hcase as [Hlt%Nat.leb_gt | Hc].
  - by rewrite Hlt.
  - simpl Py.at_boundary. rewrite Hc, andb_false_r. done.
Qed.

(** A slice never holds more characters than asked for. *)
Lemma code_points_last_chars (n : nat) (s : string) :
  (Py.code_points (Py.last_chars n s) <= n)%nat.
Proof.
  induction s as [|c s IH].
  - unfold Py.last_chars. destruct (_ && _); simpl; lia.
  - unfold Py.last_chars; fold Py.last_chars.
    destruct (Nat.leb_spec (Py.code_points (String c s)) n) as [Hle | Hgt];
      [| exact IH].
    destruct (Py.at_boundary (String c s)); [exact Hle | exact IH].
Qed.

(** On a plain string the slice is the last [n] bytes. *)
Lemma last_chars_plain (n : nat) (s : string) :
  Py.code_points s = String.length s ->
  String.length (Py.last_chars n s) = Nat.min n (String.length s).
Proof.
  induction s as [|c s IH]; intros Hplain.
  - unfold Py.last_chars. destruct (_ && _); simpl; lia.
  - pose proof (plain_at_boundary _ Hplain) as Hb.
    destruct (plain_String _ _ Hplain) as [Hc Hs].
    destruct (Nat.le_gt_cases (Py.code_points (String c s)) n) as [Hle | Hgt].
    + rewrite (last_chars_whole _ _ Hle Hb). rewrite Hplain in Hle. lia.
    + rewrite (last_chars_step n c s (or_introl Hgt)), (IH Hs).
      rewrite Hplain in Hgt. simpl in Hgt |- *. lia.
Qed.

(** [(s + t)[-len(t):]] is [t], for a plain [t]. *)
Lemma last_chars_append (s t : string) :
  Py.code_points t = String.length t ->
  Py.last_chars (String.length t) (s +:+ t) = t.
Proof.
  intros Hplain. induction s as [|c s IH].
  - change ("" +:+ t) with t. apply last_chars_whole; [lia |].
    by apply plain_at_boundary.
  - change (String c s +:+ t) with (String c (s +:+ t)).
    rewrite last_chars_step; [exact IH |].
    simpl. rewrite code_points_append, Hplain.
    destruct (Py.continuation c); [by right | left; lia].
Qed.

(** [(s + t)[:-len(t)]] is [s], for a plain [t]. *)
Lemma drop_last_append (s t : string) :
  Py.code_points t = String.length t ->
  Py.drop_last (String.length t) (s +:+ t) = s.
Proof.
  intros Hplain. unfold Py.drop_last.
  rewrite (last_chars_append _ _ Hplain), length_append.
  replace (String.length s + String.length t - String.length t)%nat
    with (String.length s) by lia.
  apply substring_append_l.
Qed.

Lemma plain_hex (d : Hexadecimal.uint) :
  Py.code_points (NilEmpty.string_of_uint d)
  = String.length (NilEmpty.string_of_uint d).
Proof. induction d; simpl; congruence. Qed.

Lemma plain_zfill (width fuel : nat) (s : string) :
  Py.code_points s = String.length s ->
  Py.code_points (Py.zfill width s fuel)
  = String.length (Py.zfill width s fuel).
Proof.
  revert s. induction fuel as [|k IH]; intros s Hs; simpl; [done |].
  destruct (_ <? _)%nat; [| done]. apply IH.
  change ("0" +:+ s) with (String "0" s). simpl. by rewrite Hs.
Qed.

Lemma plain_format_08x (n : N) :
  Py.code_points (Py.format_08x n) = String.length (Py.format_08x n).
Proof.
  unfold Py.format_08x. apply plain_zfill.
  destruct (N.to_hex_uint n); try apply plain_hex. reflexivity.
Qed.

(** The slice counts characters: the owner's name ends in a two-byte
    letter here, and the short id is its last four characters, five
    bytes long. *)
Example mdns_short_id_accented :
  mdns_short_id "!3c7f9d4e (Zoë)" = "Zoë)"
  /\ String.length (mdns_short_id "!3c7f9d4e (Zoë)") = 5%nat
  /\ Py.code_points (mdns_short_id "!3c7f9d4e (Zoë)") = 4%nat.
Proof. repeat split. Qed.

Lemma zfill_length (width fuel : nat) (s : string) :
  (width <= String.length s + fuel)%nat ->
  (width <= String.length (Py.zfill width s fuel))%nat.
Proof.
  revert s. induction fuel as [|k IH]; intros s Hlen; simpl; [lia |].
  destruct (Nat.ltb_spec (String.length s) width); [| lia].
  apply IH. change ("0" +:+ s) with (String "0" s). simpl. lia.
Qed.

(** X4.  For a bare identifier, as the probe renders it from any node
    number, the short id is exactly four characters long: the last four
    characters of the zero-padded hex digits. *)
Theorem mdns_short_id_of_bare_id (n : N) :
  mdns_short_id (render_node_id n) = Py.last_chars 4 (Py.format_08x n)
  /\ String.length (mdns_short_id (render_node_id n)) = 4%nat
  /\ (8 <= String.length (Py.format_08x n))%nat.
Proof.
  assert (Hlen : (8 <= String.length (Py.format_08x n))%nat).
  { unfold Py.format_08x. apply zfill_length. lia. }
  rewrite mdns_short_id_bare. split; [done |]. split; [| done].
  rewrite (last_chars_plain _ _ (plain_format_08x n)). lia.
Qed.

(** X5.  Whatever string the Bridge carries as its node id, a service
    record set by [start] on a fresh Bridge names the bridge's own port
    and device, has "meshtastic_<short id>.local." as server and
    "meshtastic_<short id>._meshtastic._tcp.local." as instance name,
    where the short id has at most four characters (code points, however
    many bytes each takes). *)
Theorem start_service_record (w : StartEnv) (dev : string) (p : Z)
    (nid : string) (info : ServiceInfo) :
  service_info (start w (Bridge_init dev p (Some nid))).1.2 = Some info ->
  si_port info = p
  /\ si_device info = dev
  /\ si_node_id info = nid
  /\ si_server info = "meshtastic_" +:+ mdns_short_id nid +:+ ".local."
  /\ si_name info
     = "meshtastic_" +:+ mdns_short_id nid +:+ "._meshtastic._tcp.local."
  /\ (Py.code_points (mdns_short_id nid) <= 4)%nat.
Proof.
  assert (Hname : Py.drop_last 7 (mdns_hostname nid)
                  = "meshtastic_" +:+ mdns_short_id nid).
  { unfold mdns_hostname.
    replace ("meshtastic_" +:+ mdns_short_id nid +:+ ".local.")
      with (("meshtastic_" +:+ mdns_short_id nid) +:+ ".local.").
    - by apply (drop_last_append _ ".local.").
    - reflexivity. }
  assert (Hshort : (Py.code_points (mdns_short_id nid) <= 4)%nat)
    by apply code_points_last_chars.
  destruct nid as [|c nid]; destruct_start_env w; simpl;
    try discriminate;
    (intros [= <-]; simpl; rewrite Hname; done).
Qed.

(** On [started_bridge], which carries "!3c7f9d4e". *)
Lemma start_service_record_witness :
  exists info,
    service_info started_bridge = Some info
    /\ si_port info = 4403
    /\ si_device info = "/dev/cu.usbserial-0001"
    /\ si_node_id info = "!3c7f9d4e"
    /\ si_server info = "meshtastic_" +:+ mdns_short_id "!3c7f9d4e" +:+ ".local."
    /\ si_name info
       = "meshtastic_" +:+ mdns_short_id "!3c7f9d4e"
           +:+ "._meshtastic._tcp.local."
    /\ (Py.code_points (mdns_short_id "!3c7f9d4e") <= 4)%nat.
Proof.
  eexists. split; [reflexivity |].
  apply (start_service_record env_ok "/dev/cu.usbserial-0001" 4403 "!3c7f9d4e").
  reflexivity.
Defined.

(** ** The port allocator, again *)

Lemma ports_ahead_shrinks (used : gset Z) (p : Z) :
  p ∈ used ->
  (size (ports_ahead used (p + 1)) < size (ports_ahead used p))%nat.
Proof.
  intros Hin. apply subset_size. unfold ports_ahead. split.
  - intros q. rewrite !elem_of_filter. intros [Hle Hq]. split; [lia | done].
  - intros Hsub. specialize (Hsub p). rewrite !elem_of_filter in Hsub.
    destruct Hsub as [Hle _]; [split; [lia | done] | lia].
Qed.

(** The loop advances by at most one per used port at or above its
    starting point. *)
Lemma next_port_bound (used : gset Z) (p : Z) :
  next_port used p <= p + Z.of_nat (size (ports_ahead used p)).
Proof.
  funelim (next_port used p).
  - match goal with IH : (_ <= _)%Z |- _ => rename IH into Hrec end.
    pose proof (ports_ahead_shrinks used p Hin). lia.
  - lia.
Qed.

Lemma size_list_to_set_le (l : list Z) :
  (size (list_to_set l : gset Z) <= length l)%nat.
Proof.
  induction l as [|x l IH].
  - by rewrite list_to_set_nil, size_empty.
  - rewrite list_to_set_cons, size_union_alt, size_singleton. simpl.
    assert (Hdiff : (size (list_to_set l ∖ {[x]} : gset Z)
                     <= size (list_to_set l : gset Z))%nat).
    { apply subseteq_size. intros q Hq.
      apply elem_of_difference in Hq as [Hq _]. exact Hq. }
    lia.
Qed.

(** X6.  The allocator never looks further than one port per running
    bridge: the port it returns is at most the base plus the number of
    bridges whose liveness check passes.  When no running bridge holds
    the base port it returns the base itself, whatever ports stopped
    bridges carry. *)
Theorem get_next_available_port_bound (start_port : Z) (bridges : list Bridge) :
  get_next_available_port start_port bridges
  <= start_port
     + Z.of_nat (length (filter (fun b => is_running b = true) bridges))
  /\ ((forall b, b ∈ bridges -> is_running b = true -> port b <> start_port) ->
      get_next_available_port start_port bridges = start_port).
Proof.
  unfold get_next_available_port. split.
  - pose proof (next_port_bound (used_ports bridges) start_port) as Hb.
    assert (size (ports_ahead (used_ports bridges) start_port)
            <= length (filter (fun b => is_running b = true) bridges))%nat.
    { etrans.
      { apply subseteq_size. unfold ports_ahead. intros q Hq.
        apply elem_of_filter in Hq as [_ Hq]. exact Hq. }
      unfold used_ports. etrans; [apply size_list_to_set_le |].
      by rewrite length_fmap. }
    lia.
  - intros Hfree.
    destruct (next_port_spec (used_ports bridges) start_port)
      as (Hle & _ & Hmin).
    assert (next_port (used_ports bridges) start_port <= start_port); [| lia].
    apply Hmin; [lia |]. rewrite elem_of_used_ports.
    intros (b & Hin & Hrun & Heq). by apply (Hfree b).
Qed.

(** ** The probe, again *)

(** When no poll raises, the loop ends by closing the session, after
    nothing but sleeps. *)
Lemma poll_loop_trace (device_path : string) (timeout : Z) (start last : Q)
    (close : outcome unit) (script : list Poll) (o : outcome (option string))
    (t : list Event) :
  Forall (fun p => exists interface, observed p = Ret interface) script ->
  poll_loop device_path timeout start last close script = Some (o, t) ->
  exists k,
    (k <= length script)%nat
    /\ t = (repeat EvSleep k ++ [EvSessionClose device_path])%list.
Proof.
  intros Hobs. revert o t. unfold close_and_return.
  induction Hobs as [|p rest [i Hp] _ IH]; simpl; intros o t Hloop.
  - destruct (Qltb _ _); [discriminate Hloop |]. injection Hloop as _ <-.
    exists 0%nat. by eauto.
  - destruct (Qltb _ _).
    2:{ injection Hloop as _ <-. exists 0%nat. split; [lia | done]. }
    destruct (poll_body start p) as [[s|]|e] eqn:Hbody.
    + injection Hloop as _ <-. exists 0%nat. split; [lia | done].
    + destruct (poll_loop _ _ _ _ _ rest) as [[o' t']|]; [| discriminate Hloop].
      injection Hloop as _ <-.
      destruct (IH o' t' eq_refl) as (k & Hk & ->).
      exists (S k). split; [lia | done].
    + unfold poll_body in Hbody. rewrite Hp in Hbody.
      repeat case_match; discriminate Hbody.
Qed.

(** X7.  A probe whose session opens, whose reads never raise and whose
    clock passes the timeout returns, and between opening and closing the
    session it only sleeps, at most once per scripted poll: it leaves the
    session closed on the success, grace and timeout paths alike. *)
Theorem probe_closes_when_reads_succeed (w : ProbeEnv) (device_path : string)
    (timeout : Z) :
  open_result w = Ret tt ->
  Forall (fun p => exists interface, observed p = Ret interface) (polls w) ->
  Qltb (t_last w - start_time w) (inject_Z timeout) = false ->
  exists r k,
    (k <= length (polls w))%nat
    /\ query_meshtastic_info true w device_path timeout
       = Some (r, (EvSessionOpen device_path :: repeat EvSleep k
                     ++ [EvSessionClose device_path])%list).
Proof.
  intros Hopen Hobs Hlast. unfold query_meshtastic_info. simpl. rewrite Hopen.
  destruct (poll_loop_returns device_path timeout (start_time w) (t_last w)
              (session_close_result w) (polls w) Hlast) as [[o t] Hloop].
  destruct (poll_loop_trace _ _ _ _ _ _ _ _ Hobs Hloop) as (k & Hk & ->).
  rewrite Hloop. destruct o as [r|e]; by eauto.
Qed.

Lemma probe_closes_when_reads_succeed_witness :
  exists r k,
    (k <= length (polls probe_bare))%nat
    /\ query_meshtastic_info true probe_bare "/dev/cu.usbserial-0001" 10
       = Some (r, (EvSessionOpen "/dev/cu.usbserial-0001" :: repeat EvSleep k
                     ++ [EvSessionClose "/dev/cu.usbserial-0001"])%list).
Proof.
  apply (probe_closes_when_reads_succeed probe_bare "/dev/cu.usbserial-0001" 10).
  - reflexivity.
  - repeat constructor; by eexists.
  - reflexivity.
Defined.

Lemma startswith_empty (s : string) : Py.startswith s "" = true.
Proof. by destruct s. Qed.

Lemma poll_body_Some (start : Q) (p : Poll) (s : string) :
  poll_body start p = Ret (Some s) ->
  exists n,
    n <> 0%N
    /\ (s = render_node_id n
        \/ exists owner,
             owner <> "" /\ s = render_node_id n +:+ " (" +:+ owner +:+ ")").
Proof.
  unfold poll_body.
  destruct (observed p) as [i|]; [| discriminate].
  destruct (myInfo i) as [info|]; [| discriminate].
  destruct (my_node_num info) as [n|]; [| discriminate].
  unfold Py.truthy_num. destruct (N.eqb_spec n 0) as [| Hn]; [discriminate |].
  simpl negb. cbv iota.
  destruct (find_owner i info) as [owner|].
  - unfold Py.truthy_str.
    destruct (String.eqb_spec owner "") as [| Hne]; simpl.
    + destruct (Qltb 5 _); [| discriminate]. intros [= <-]. by eauto.
    + intros [= <-]. exists n. split; [done |]. right. by eauto.
  - destruct (Qltb 5 _); [| discriminate]. intros [= <-]. by eauto.
Qed.

Lemma poll_loop_Some (device_path : string) (timeout : Z) (start last : Q)
    (close : outcome unit) (script : list Poll) (s : string) (t : list Event) :
  poll_loop device_path timeout start last close script
  = Some (Ret (Some s), t) ->
  exists p,
    p ∈ script
    /\ Qltb (t_guard p - start) (inject_Z timeout) = true
    /\ poll_body start p = Ret (Some s).
Proof.
  revert t. unfold close_and_return.
  induction script as [|p rest IH]; simpl; intros t.
  - destruct (Qltb _ _); [done |]. by destruct close.
  - destruct (Qltb _ _) eqn:Hguard; [| by destruct close].
    destruct (poll_body start p) as [[s'|]|e] eqn:Hbody; [| | discriminate].
    + destruct close; [| discriminate].
      intros [= <- <-]. exists p. split; [left |]. done.
    + destruct (poll_loop _ _ _ _ _ rest) as [[o' t']|]; [| discriminate].
      intros [= -> <-]. destruct (IH t' eq_refl) as (q & Hq & ? & ?).
      exists q. split; [by right | done].
Qed.

(** X8.  Whenever the probe returns an identifier, the library was
    available, the session had opened, and the string is "!" followed by
    the hex digits of a non-zero node number, alone or followed by a
    non-empty owner name in parentheses; it was read at a poll that the
    loop test admitted, that is, before the timeout. *)
Theorem probe_result_format (available : bool) (w : ProbeEnv)
    (device_path : string) (timeout : Z) (s : string) (t : list Event) :
  query_meshtastic_info available w device_path timeout = Some (Some s, t) ->
  available = true
  /\ open_result w = Ret tt
  /\ Py.startswith s "!" = true
  /\ exists p n,
       p ∈ polls w
       /\ Qltb (t_guard p - start_time w) (inject_Z timeout) = true
       /\ n <> 0%N
       /\ (s = render_node_id n
           \/ exists owner,
                owner <> ""
                /\ s = render_node_id n +:+ " (" +:+ owner +:+ ")").
Proof.
  unfold query_meshtastic_info. destruct available; [| discriminate]. simpl.
  destruct (open_result w) as [[]|]; [| discriminate].
  destruct (poll_loop _ _ _ _ _ _) as [[[r|e] t']|] eqn:Hloop; try discriminate.
  intros [= -> <-].
  destruct (poll_loop_Some _ _ _ _ _ _ _ _ Hloop) as (p & Hin & Hguard & Hbody).
  destruct (poll_body_Some _ _ _ Hbody) as (n & Hn & Hs).
  split; [done |]. split; [done |]. split.
  - destruct Hs as [-> | (owner & _ & ->)]; unfold render_node_id.
    + change ("!" +:+ Py.format_08x n) with (String "!" (Py.format_08x n)).
      simpl. apply startswith_empty.
    + change (("!" +:+ Py.format_08x n) +:+ " (" +:+ owner +:+ ")")
        with (String "!" (Py.format_08x n +:+ " (" +:+ owner +:+ ")")).
      simpl. apply startswith_empty.
  - exists p, n. done.
Qed.

Lemma probe_result_format_witness :
  Py.startswith "!3c7f9d4e" "!" = true
  /\ exists p n,
       p ∈ polls probe_bare
       /\ Qltb (t_guard p - start_time probe_bare) (inject_Z 10) = true
       /\ n <> 0%N
       /\ ("!3c7f9d4e" = render_node_id n
           \/ exists owner,
                owner <> ""
                /\ "!3c7f9d4e" = render_node_id n +:+ " (" +:+ owner +:+ ")").
Proof.
  refine (proj2 (proj2 (probe_result_format true probe_bare
                          "/dev/cu.usbserial-0001" 10 "!3c7f9d4e" _ _))).
  reflexivity.
Defined.

(** ** The scanner, again *)

Lemma enumerate_devices_unnamed (h : Host) (skip_devices : gset string) :
  Forall (fun d => node_name d = "") (enumerate_devices h skip_devices).
Proof.
  apply Forall_forall. intros d. unfold enumerate_devices.
  rewrite list_elem_of_In.
  destruct (String.eqb (sys_platform h) "darwin"); rewrite in_flat_map.
  - intros (pattern & _ & Hd). apply list_elem_of_In, list_elem_of_omap in Hd.
    destruct Hd as (p & _ & Hcand). unfold darwin_candidate in Hcand.
    destruct (decide _); [discriminate Hcand |].
    destruct (skip_pattern_match p); [discriminate Hcand |].
    destruct (Py.startswith p "/dev/cu."); [| discriminate Hcand].
    by injection Hcand as <-.
  - intros (pattern & _ & Hd). apply list_elem_of_In, list_elem_of_fmap in Hd.
    by destruct Hd as (p & -> & _).
Qed.

(** X9.  When names are not asked for, or the meshtastic library is
    missing, the scan returns without probing: it returns the devices it
    collected, each with an empty node name. *)
Theorem scan_without_probing (h : Host) (query_names : bool)
    (skip_devices : option (gset string)) :
  query_names && MESHTASTIC_AVAILABLE h = false ->
  find_serial_devices h query_names skip_devices
  = Some (enumerate_devices h (default ∅ skip_devices))
  /\ Forall (fun d => node_name d = "")
            (enumerate_devices h (default ∅ skip_devices)).
Proof.
  intros Hoff. split; [| apply enumerate_devices_unnamed].
  unfold find_serial_devices. by rewrite Hoff.
Qed.

Lemma scan_without_probing_witness :
  find_serial_devices mac_host false None
  = Some (enumerate_devices mac_host (default ∅ None))
  /\ Forall (fun d => node_name d = "")
            (enumerate_devices mac_host (default ∅ None)).
Proof. apply (scan_without_probing mac_host false None). reflexivity. Defined.

(** X10.  On a platform other than macOS the scan keeps every path that
    [glob] yields for "/dev/ttyUSB*" and then for "/dev/ttyACM*", in that
    order, whatever [skip_devices] holds, and describes each of them from
    its path alone. *)
Theorem linux_scan_keeps_every_path (h : Host) (query_names : bool)
    (skip_devices : option (gset string)) :
  sys_platform h <> "darwin" ->
  (forall p, Qltb (t_last (probe_env h p) - start_time (probe_env h p))
                  (inject_Z 10) = false) ->
  exists devs,
    find_serial_devices h query_names skip_devices = Some devs
    /\ path <$> devs
       = (glob_glob h "/dev/ttyUSB*" ++ glob_glob h "/dev/ttyACM*")%list
    /\ Forall (fun d => description d = linux_description (path d)) devs.
Proof.
  intros Hplat Hscripts.
  destruct (find_serial_devices_paths h query_names skip_devices Hscripts)
    as (devs & Hfind & Hpaths).
  assert (Henum : enumerate_devices h (default ∅ skip_devices)
                  = linux_candidate
                      <$> (glob_glob h "/dev/ttyUSB*"
                             ++ glob_glob h "/dev/ttyACM*")%list).
  { unfold enumerate_devices. apply String.eqb_neq in Hplat. rewrite Hplat.
    simpl. by rewrite app_nil_r, fmap_app. }
  exists devs. split; [done |]. split.
  - rewrite Hpaths, Henum, <- list_fmap_compose. simpl.
    by rewrite list_fmap_id.
  - unfold find_serial_devices in Hfind. rewrite Henum in Hfind.
    simpl default in Hfind.
    destruct (_ && _ && _).
    + apply mapM_Some in Hfind. apply Forall_forall. intros d Hd.
      apply list_elem_of_lookup in Hd as [i Hi].
      destruct (Forall2_lookup_r _ _ _ _ _ Hfind Hi) as (d0 & Hi0 & Hq).
      apply query_device_path in Hq as [-> ->].
      apply list_elem_of_lookup_2, list_elem_of_fmap in Hi0.
      by destruct Hi0 as (p & -> & _).
    + injection Hfind as <-. apply Forall_forall. intros d Hd.
      apply list_elem_of_fmap in Hd. by destruct Hd as (p & -> & _).
Qed.

Lemma linux_scan_keeps_every_path_witness :
  exists devs,
    find_serial_devices linux_host true (Some {[ "/dev/ttyUSB0" ]}) = Some devs
    /\ path <$> devs
       = (glob_glob linux_host "/dev/ttyUSB*"
            ++ glob_glob linux_host "/dev/ttyACM*")%list
    /\ Forall (fun d => description d = linux_description (path d)) devs.
Proof.
  apply (linux_scan_keeps_every_path linux_host true (Some {[ "/dev/ttyUSB0" ]})).
  - discriminate.
  - intros p. reflexivity.
Defined.

Lemma darwin_candidate_paths (skip_devices : gset string) (l : list string) :
  path <$> omap (darwin_candidate skip_devices) l
  = filter (fun p => (p ∉ skip_devices)
                     /\ skip_pattern_match p = false
                     /\ Py.startswith p "/dev/cu." = true) l.
Proof.
  induction l as [|p l IH]; [done |].
  rewrite filter_cons.
  change (omap (darwin_candidate skip_devices) (p :: l))
    with (match darwin_candidate skip_devices p with
          | Some d => d :: omap (darwin_candidate skip_devices) l
          | None => omap (darwin_candidate skip_devices) l
          end).
  destruct (darwin_candidate skip_devices p) as [d|] eqn:Hcand.
  - apply darwin_candidate_Some in Hcand as (Hpath & Hout & Hskip & Hcu).
    rewrite decide_True by done. rewrite fmap_cons, IH. by rewrite Hpath.
  - rewrite decide_False; [exact IH |]. intros (Hout & Hskip & Hcu).
    unfold darwin_candidate in Hcand.
    destruct (decide (p ∈ skip_devices)); [done |].
    rewrite Hskip, Hcu in Hcand. discriminate Hcand.
Qed.

(** X11.  On macOS the scan keeps exactly the paths that [glob] yields
    for the four patterns, in pattern order and then [glob] order, that
    are not in [skip_devices], are not matched by the skip pattern and
    begin with "/dev/cu."; nothing else is dropped. *)
Theorem darwin_scan_keeps_exactly (h : Host) (query_names : bool)
    (skip_devices : gset string) :
  sys_platform h = "darwin" ->
  (forall p, Qltb (t_last (probe_env h p) - start_time (probe_env h p))
                  (inject_Z 10) = false) ->
  exists devs,
    find_serial_devices h query_names (Some skip_devices) = Some devs
    /\ path <$> devs
       = filter (fun p => (p ∉ skip_devices)
                          /\ skip_pattern_match p = false
                          /\ Py.startswith p "/dev/cu." = true)
                (glob_glob h "/dev/tty.usb*" ++ glob_glob h "/dev/cu.usb*"
                   ++ glob_glob h "/dev/tty.SLAB*"
                   ++ glob_glob h "/dev/cu.SLAB*")%list.
Proof.
  intros Hplat Hscripts.
  destruct (find_serial_devices_paths h query_names (Some skip_devices) Hscripts)
    as (devs & Hfind & Hpaths).
  exists devs. split; [done |]. rewrite Hpaths. simpl default.
  unfold enumerate_devices. rewrite Hplat, String.eqb_refl. simpl flat_map.
  rewrite app_nil_r, !fmap_app, !filter_app, !darwin_candidate_paths.
  reflexivity.
Qed.

Lemma darwin_scan_keeps_exactly_witness :
  let skip_devices : gset string := {[ "/dev/cu.usbserial-0002" ]} in
  exists devs,
    find_serial_devices mac_host true (Some skip_devices) = Some devs
    /\ path <$> devs
       = filter (fun p => (p ∉ skip_devices)
                          /\ skip_pattern_match p = false
                          /\ Py.startswith p "/dev/cu." = true)
                (glob_glob mac_host "/dev/tty.usb*"
                   ++ glob_glob mac_host "/dev/cu.usb*"
                   ++ glob_glob mac_host "/dev/tty.SLAB*"
                   ++ glob_glob mac_host "/dev/cu.SLAB*")%list.
Proof.
  intros skip_devices.
  apply (darwin_scan_keeps_exactly mac_host true skip_devices).
  - reflexivity.
  - intros p. reflexivity.
Defined.

Lemma strip_prefix_Some (p s rest : string) :
  strip_prefix p s = Some rest <-> s = p +:+ rest.
Proof.
  revert s. induction p as [|a p IH]; intros s; simpl.
  - split; [by intros [= ->] | by intros ->].
  - change (String a p +:+ rest) with (String a (p +:+ rest)).
    destruct s as [|b s]; [split; discriminate |].
    destruct (Ascii.eqb_spec a b) as [<- | Hne].
    + rewrite IH. split; [by intros -> | by intros [= ->]].
    + split; [discriminate | by intros [= ? _]].
Qed.

Lemma leading_ge (f : ascii -> bool) (n : nat) (s : string) :
  (n <= leading f s)%nat
  <-> exists run rest,
        s = run +:+ rest /\ String.length run = n
        /\ Forall (fun c => f c = true) (list_ascii_of_string run).
Proof.
  revert s. induction n as [|n IH]; intros s.
  - split; [| lia]. intros _. exists "", s. by repeat split.
  - destruct s as [|c s]; simpl.
    + split; [lia |]. intros ([|? ?] & rest & Hs & Hlen & _); discriminate.
    + destruct (f c) eqn:Hc.
      * rewrite <- Nat.succ_le_mono, IH. split.
        -- intros (run & rest & -> & <- & Hall).
           exists (String c run), rest. repeat split. simpl. by constructor.
        -- intros ([|c' run] & rest & Hs & Hlen & Hall); [discriminate |].
           change (String c' run +:+ rest) with (String c' (run +:+ rest)) in Hs.
           injection Hs as <- ->. exists run, rest. simpl in Hlen, Hall.
           split; [done |]. split; [lia |]. by inversion Hall.
      * split; [lia |].
        intros ([|c' run] & rest & Hs & Hlen & Hall); [discriminate |].
        change (String c' run +:+ rest) with (String c' (run +:+ rest)) in Hs.
        injection Hs as <- ->. simpl in Hall. inversion Hall. congruence.
Qed.

(** X12.  The skip pattern matches a path exactly when the path is
    "/dev/cu.usbmodem", then ten characters each an upper-case letter or a
    digit, then anything: the match is anchored at the start of the path
    and not at its end. *)
Theorem skip_pattern_match_iff (p : string) :
  skip_pattern_match p = true
  <-> exists run rest,
        p = "/dev/cu.usbmodem" +:+ run +:+ rest
        /\ String.length run = 10%nat
        /\ Forall (fun c => upper_or_digit c = true) (list_ascii_of_string run).
Proof.
  unfold skip_pattern_match. split.
  - destruct (strip_prefix "/dev/cu.usbmodem" p) as [s|] eqn:Hstrip;
      [| discriminate].
    apply strip_prefix_Some in Hstrip as ->. intros Hlead.
    apply Nat.leb_le, leading_ge in Hlead as (run & rest & -> & Hlen & Hall).
    by eauto.
  - intros (run & rest & -> & Hlen & Hall).
    rewrite (proj2 (strip_prefix_Some "/dev/cu.usbmodem" _ (run +:+ rest)) eq_refl).
    apply Nat.leb_le, leading_ge. by eauto.
Qed.

Example skip_pattern_examples :
  skip_pattern_match "/dev/cu.usbmodemM4AE1CAEMD6" = true
  /\ skip_pattern_match "/dev/cu.usbmodem1101" = false
  /\ skip_pattern_match "/dev/tty.usbmodemM4AE1CAEMD6" = false.
Proof. by repeat split. Qed.

(** ** What is shown to the user *)

Lemma startswith_append (p s : string) : Py.startswith (p +:+ s) p = true.
Proof.
  induction p as [|a p IH]; [apply startswith_empty |].
  change (String a p +:+ s) with (String a (p +:+ s)). simpl.
  by rewrite Ascii.eqb_refl, IH.
Qed.

Lemma append_empty_r (s : string) : s +:+ "" = s.
Proof.
  induction s as [|a s IH]; [done |].
  change (String a s +:+ "") with (String a (s +:+ "")). by rewrite IH.
Qed.

(** X13.  The text shown for a device always begins with its path, and
    is the bare path exactly when the device has neither a node name nor a
    description; otherwise the path is followed by one parenthesised
    group. *)
Theorem SerialDevice_str_path (d : SerialDevice) :
  Py.startswith (SerialDevice_str d) (path d) = true
  /\ (SerialDevice_str d = path d <-> node_name d = "" /\ description d = "")
  /\ (SerialDevice_str d = path d
      \/ exists inner, SerialDevice_str d = path d +:+ " (" +:+ inner +:+ ")").
Proof.
  assert (Hlong : forall inner, path d +:+ " (" +:+ inner +:+ ")" <> path d).
  { intros inner Heq. apply (f_equal String.length) in Heq.
    rewrite !length_append in Heq. simpl in Heq. lia. }
  unfold SerialDevice_str, str_parts.
  destruct d as [p desc name]; simpl.
  destruct name as [|c name], desc as [|c' desc]; simpl.
  - split; [| split; [split; [done |] | by left]].
    + rewrite <- (append_empty_r p) at 1. apply startswith_append.
    + done.
  - split; [apply startswith_append |]. split.
    + split; [intros Heq; by apply Hlong in Heq | intros [_ [=]]].
    + right. by eauto.
  - split; [apply startswith_append |]. split.
    + split; [intros Heq; by apply Hlong in Heq | intros [[=] _]].
    + right. by eauto.
  - split; [apply startswith_append |]. split.
    + split; [intros Heq; by apply Hlong in Heq | intros [[=] _]].
    + right. by eauto.
Qed.

(** X14.  [print_bridges] prints nothing when no bridge is running;
    otherwise it prints a heading and then one line per running bridge,
    numbered from 1 in list order, and no line for a bridge that has
    stopped or whose subprocess has exited. *)
Theorem print_bridges_lines (bs : list Bridge) :
  length (print_bridges bs)
  = (if decide (filter (fun b => is_running b = true) bs = []) then 0
     else S (length (filter (fun b => is_running b = true) bs)))%nat
  /\ (forall i b,
        filter (fun b => is_running b = true) bs !! i = Some b ->
        print_bridges bs !! S i = Some (bridge_line (S i) b)).
Proof.
  unfold print_bridges. destruct bs as [|b0 bs]; [by split |].
  destruct (filter (fun b => is_running b = true) (b0 :: bs)) as [|a active].
  - by split.
  - rewrite decide_False by done. split.
    + simpl. by rewrite length_imap.
    + intros i b Hi. change ((?x :: ?l) !! S i) with (l !! i).
      rewrite list_lookup_imap, Hi. done.
Qed.

(** X15.  [check_dependencies] reports success exactly when the socat
    call returned, whatever the platform and whether or not the optional
    libraries are there; it reports failure on CalledProcessError and
    FileNotFoundError and lets any other exception escape.  It prints
    nothing when socat and both libraries are there. *)
Theorem check_dependencies_socat_only (platform : string)
    (meshtastic_available zeroconf_available : bool) (socat : outcome unit) :
  ((check_dependencies platform meshtastic_available zeroconf_available socat).1
   = Ret true <-> socat = Ret tt)
  /\ ((check_dependencies platform meshtastic_available zeroconf_available
         socat).1 = Ret false
      <-> socat = Raise CalledProcessError \/ socat = Raise FileNotFoundError)
  /\ (check_dependencies platform meshtastic_available zeroconf_available socat).1
     = (check_dependencies "linux" true true socat).1
  /\ check_dependencies platform true true (Ret tt) = (Ret true, []).
Proof.
  destruct socat as [[]|[]]; simpl; repeat split;
    try discriminate; try done; intuition discriminate.
Qed.

(** ** yolo_mode *)

Lemma truthy_str_Some (s : string) :
  Py.truthy_str (Some s) = true <-> s <> "".
Proof.
  unfold Py.truthy_str. destruct (String.eqb_spec s ""); simpl; split; done.
Qed.

Lemma first_identified_Some (devs : list SerialDevice) (dev : SerialDevice) :
  first_identified devs = Some dev ->
  exists before after,
    devs = (before ++ dev :: after)%list
    /\ Forall (fun d => node_name d = "") before
    /\ node_name dev <> "".
Proof.
  unfold first_identified.
  induction devs as [|d devs IH]; [intros Hnil; discriminate Hnil |].
  rewrite filter_cons.
  destruct (decide (Py.truthy_str (Some (node_name d)) = true)) as [Hname | Hempty].
  - intros [= <-]. apply truthy_str_Some in Hname.
    exists [], devs. split; [done |]. split; [by constructor | done].
  - intros Hhead.
    destruct (IH Hhead) as (before & after & -> & Hbefore & Hdev).
    exists (d :: before), after. split; [done |]. split; [| done].
    constructor; [| done].
    destruct (String.eqb_spec (node_name d) "") as [| Hne]; [done |].
    by apply truthy_str_Some in Hne.
Qed.

(** X16.  When [yolo_mode] ends up bridging, the socat check had passed
    and the one bridge it holds is for the first device of the scan, in
    scan order, that has a node name: every device before it has none.
    The bridge is on port 4403, carries that node name as its node id, and
    holds the handle of the subprocess the spawn returned. *)
Theorem yolo_bridges_first_identified (h : Host) (ws : StartEnv)
    (socat : outcome unit) (bs : list Bridge) (t : list Event) :
  yolo_mode h ws socat = Some (Ret (YoloBridging bs), t) ->
  socat = Ret tt
  /\ exists devs before dev after b hd,
       find_serial_devices h true None = Some devs
       /\ devs = (before ++ dev :: after)%list
       /\ Forall (fun d => node_name d = "") before
       /\ node_name dev <> ""
       /\ bs = [b]
       /\ device b = path dev /\ port b = 4403
       /\ node_id b = Some (node_name dev)
       /\ popen_result ws = Ret hd /\ process b = Some hd.
Proof.
  unfold yolo_mode.
  destruct socat as [[]|[]]; simpl; try discriminate.
  destruct (find_serial_devices h true None) as [devs|] eqn:Hscan;
    [| discriminate]. simpl.
  destruct devs as [|d0 devs0] eqn:Hdevs; [discriminate |]. rewrite <- Hdevs.
  destruct (first_identified devs) as [dev|] eqn:Hfirst; [| discriminate].
  destruct (first_identified_Some _ _ Hfirst)
    as (before & after & Hsplit & Hbefore & Hdev).
  pose proof (start_keeps_identity ws
                (Bridge_init (path dev) 4403 (Some (node_name dev))))
    as (Hd & Hp & Hn & _).
  destruct (start_cases ws) as [(hd & Hstty & Hpopen) | Hfail].
  - destruct (start_spawned ws
                (Bridge_init (path dev) 4403 (Some (node_name dev)))
                hd Hstty Hpopen) as (b & t0 & Hstart & Hproc & _).
    rewrite Hstart in Hd, Hp, Hn |- *. simpl in Hd, Hp, Hn.
    intros [= <- <-]. split; [done |].
    exists devs, before, dev, after, b, hd. by rewrite Hdevs in *.
  - destruct (start_not_spawned ws
                (Bridge_init (path dev) 4403 (Some (node_name dev))) Hfail)
      as (t0 & -> & _).
    discriminate.
Qed.

Lemma yolo_bridges_first_identified_witness :
  Ret tt = Ret tt
  /\ exists devs before dev after b hd,
       find_serial_devices mac_host true None = Some devs
       /\ devs = (before ++ dev :: after)%list
       /\ Forall (fun d => node_name d = "") before
       /\ node_name dev <> ""
       /\ [ (start env_ok (Bridge_init "/dev/cu.usbserial-0001" 4403
                             (Some "!3c7f9d4e (Alice)"))).1.2 ] = [b]
       /\ device b = path dev /\ port b = 4403
       /\ node_id b = Some (node_name dev)
       /\ popen_result env_ok = Ret hd /\ process b = Some hd.
Proof.
  apply (yolo_bridges_first_identified mac_host env_ok (Ret tt) _
           (start env_ok (Bridge_init "/dev/cu.usbserial-0001" 4403
                            (Some "!3c7f9d4e (Alice)"))).2).
  reflexivity.
Defined.

(** X17.  Without the meshtastic library [yolo_mode] can never bridge: no
    device gets a node name, so it makes no external call and, unless the
    socat check lets an exception escape, exits with code 1. *)
Theorem yolo_needs_meshtastic (h : Host) (ws : StartEnv) (socat : outcome unit) :
  MESHTASTIC_AVAILABLE h = false ->
  exists r,
    yolo_mode h ws socat = Some (r, [])
    /\ (r = Ret (YoloExit 1) \/ exists e, r = Raise e)
    /\ (socat = Ret tt -> r = Ret (YoloExit 1)).
Proof.
  intros Hoff.
  assert (Hexit : forall socat' : outcome unit,
            exists r,
              Some (Ret (YoloExit 1), @nil Event) = Some (r, [])
              /\ (r = Ret (YoloExit 1) \/ exists e, r = Raise e)
              /\ (socat' = Ret tt -> r = Ret (YoloExit 1))).
  { intros socat'. exists (Ret (YoloExit 1)). by eauto. }
  assert (Hraise : forall e0 : Exn,
            exists r,
              Some (@Raise YoloResult e0, @nil Event) = Some (r, [])
              /\ (r = Ret (YoloExit 1) \/ exists e, r = Raise e)
              /\ (@Raise unit e0 = Ret tt -> r = Ret (YoloExit 1))).
  { intros e0. exists (Raise e0). split; [done |]. split; [by eauto | done]. }
  unfold yolo_mode.
  destruct socat as [[]|[]]; simpl;
    try apply Hexit; try apply Hraise.
  pose proof (enumerate_devices_unnamed h ∅) as Hnames.
  unfold find_serial_devices. rewrite Hoff. simpl.
  destruct (enumerate_devices h ∅) as [|d0 devs0]; simpl; [apply Hexit |].
  destruct (first_identified (d0 :: devs0)) as [dev|] eqn:Hfirst;
    [| apply Hexit].
  exfalso.
  destruct (first_identified_Some _ _ Hfirst)
    as (before & after & Hsplit & _ & Hdev).
  rewrite Hsplit in Hnames. apply Forall_app in Hnames as [_ Hnames].
  by inversion Hnames.
Qed.

Lemma yolo_needs_meshtastic_witness :
  exists r,
    yolo_mode mac_host_no_meshtastic env_ok (Ret tt) = Some (r, [])
    /\ (r = Ret (YoloExit 1) \/ exists e, r = Raise e)
    /\ (Ret tt = Ret tt -> r = Ret (YoloExit 1)).
Proof.
  apply (yolo_needs_meshtastic mac_host_no_meshtastic env_ok (Ret tt)).
  reflexivity.
Defined.

(** ** The menu loop *)

(** What the create branch can do to the menu state: nothing at all, or
    append one Bridge, started, for the chosen device, whose path was not
    in the set built before the prompt, on the requested port.  When it
    raises, it has changed nothing and called nothing. *)
Lemma create_bridge_effect (ws : StartEnv) (active : gset string) (n : N)
    (pin : PortInput) (st : Menu) :
  exists o st' t,
    create_bridge ws active n pin st = (o, st', t)
    /\ devices st' = devices st
    /\ need_scan st' = need_scan st
    /\ ((st' = st /\ (t = [] \/ o = Ret FailedToStart)
         /\ forall m, o <> Ret (BridgeStarted m))
        \/ exists dev p b' m,
             devices st !! Z.to_nat (Z.of_N n - 1) = Some dev
             /\ (path dev ∉ active)
             /\ (pin = PortInt p
                 \/ (pin = PortBlank
                     /\ p = get_next_available_port 4403 (bridges st)))
             /\ start ws (Bridge_init (path dev) p (Some (node_name dev)))
                = (Ret true, b', t)
             /\ bridges st' = (bridges st ++ [b'])%list
             /\ o = Ret (BridgeStarted m)
             /\ (0 <= Z.of_N n - 1)%Z).
Proof.
  set (Post := fun (o : outcome Report) (st' : Menu) (t : list Event) =>
         devices st' = devices st
         /\ need_scan st' = need_scan st
         /\ ((st' = st /\ (t = [] \/ o = Ret FailedToStart)
              /\ forall m, o <> Ret (BridgeStarted m))
             \/ exists dev p b' m,
                  devices st !! Z.to_nat (Z.of_N n - 1) = Some dev
                  /\ (path dev ∉ active)
                  /\ (pin = PortInt p
                      \/ (pin = PortBlank
                          /\ p = get_next_available_port 4403 (bridges st)))
                  /\ start ws (Bridge_init (path dev) p (Some (node_name dev)))
                     = (Ret true, b', t)
                  /\ bridges st' = (bridges st ++ [b'])%list
                  /\ o = Ret (BridgeStarted m)
                  /\ (0 <= Z.of_N n - 1)%Z)).
  change (exists o st' t,
            create_bridge ws active n pin st = (o, st', t) /\ Post o st' t).
  assert (Hstill : forall (o : outcome Report),
             (forall m, o <> Ret (BridgeStarted m)) ->
             exists o' st' t,
               (o, st, @nil Event) = (o', st', t) /\ Post o' st' t).
  { intros o Ho. exists o, st, []. split; [done |]. split; [done |].
    split; [done |]. left. split; [done |]. split; [by left | done]. }
  unfold create_bridge. unfold_eff.
  destruct ((0 <=? Z.of_N n - 1)%Z
            && (Z.of_N n - 1 <? Z.of_nat (length (devices st)))%Z) eqn:Hrange;
    [| by apply Hstill].
  apply andb_true_iff in Hrange as [Hlo Hhi].
  apply Z.leb_le in Hlo. apply Z.ltb_lt in Hhi.
  destruct (lookup_lt_is_Some_2 (devices st) (Z.to_nat (Z.of_N n - 1)))
    as [dev Hdev]; [lia |].
  rewrite Hdev.
  destruct (decide (path dev ∈ active)) as [Hheld | Hfree].
  { destruct (existing_bridge (path dev) (bridges st)); by apply Hstill. }
  destruct pin as [|p| |]; simpl; try (by apply Hstill);
    unfold on_object, Post;
    (destruct (start_cases ws) as [(hd & Hstty & Hpopen) | Hfail];
     [ match goal with
       | |- context [start ws ?b] =>
           destruct (start_spawned ws b hd Hstty Hpopen)
             as (b' & t & Hs & _ & _)
       end;
       rewrite Hs; simpl; rewrite !app_nil_r;
       do 3 eexists; split; [reflexivity |]; split; [done |];
       split; [done |]; right; exists dev; eexists; exists b'; eexists;
       split; [done |]; split; [done |];
       split; [first [by left | by right] |]; split; [exact Hs |]; done
     | match goal with
       | |- context [start ws ?b] =>
           destruct (start_not_spawned ws b Hfail) as (t & Hs & _)
       end;
       rewrite Hs; simpl; rewrite !app_nil_r;
       do 3 eexists; split; [reflexivity |]; split; [done |];
       split; [done |]; left; split; [done |];
       split; [by right | discriminate] ]).
Qed.

(** The pause prompt changes neither the state nor the calls made; it
    passes the report on, or raises in its place. *)
Lemma pause_effect (press_enter : outcome unit) (r : Report) (st : Menu) :
  exists o,
    pause press_enter r st = (o, st, [])
    /\ (o = Ret r \/ exists e, press_enter = Raise e /\ o = Raise e).
Proof.
  unfold pause. destruct r, press_enter as [[]|e]; unfold_eff;
    eexists; (split; [reflexivity |]); by eauto.
Qed.

(** The create branch followed by its pause: the state and the calls are
    those of the branch, and the report is its report unless something
    was raised. *)
Lemma create_then_pause (ws : StartEnv) (w : nat -> StopEnv)
    (active : gset string) (press_enter : outcome unit) (n : N)
    (pin : PortInput) (st : Menu) :
  exists o,
    handle_choice ws w active press_enter (ChoiceDigits n pin) st
    = (o, (create_bridge ws active n pin st).1.2,
       (create_bridge ws active n pin st).2)
    /\ (o = (create_bridge ws active n pin st).1.1
        \/ exists r e,
             (create_bridge ws active n pin st).1.1 = Ret r
             /\ press_enter = Raise e /\ o = Raise e).
Proof.
  unfold handle_choice.
  change (get (S := Menu) ≫= _) with
    (bind (get (S := Menu))
       (fun _ => bind (create_bridge ws active n pin) (pause press_enter))).
  unfold bind at 1, get. simpl.
  unfold bind.
  destruct (create_bridge ws active n pin st) as [[[r|e] st'] t]; simpl.
  - destruct (pause_effect press_enter r st') as (o & -> & Ho).
    exists o. rewrite app_nil_r. split; [done |].
    destruct Ho as [-> | (e & He & ->)]; [by left | right; by eauto].
  - eexists. split; [reflexivity | by left].
Qed.

Lemma filter_running_none (bs : list Bridge) :
  Forall (fun b => is_running b = false) bs ->
  filter (fun b => is_running b = true) bs = [].
Proof.
  induction 1 as [|b bs Hb _ IH]; [done |].
  rewrite filter_cons, decide_False by congruence. exact IH.
Qed.

(** What a turn of the full menu can do to the list of bridges: leave it
    alone, leave no bridge running, or append one Bridge for a path that
    was not in the set built before the prompt.  It never touches the
    device list. *)
Lemma handle_choice_effect (ws : StartEnv) (w : nat -> StopEnv)
    (active : gset string) (press_enter : outcome unit) (c : Choice)
    (st : Menu) :
  exists o st' t,
    handle_choice ws w active press_enter c st = (o, st', t)
    /\ devices st' = devices st
    /\ (bridges st' = bridges st
        \/ Forall (fun b => is_running b = false) (bridges st')
        \/ exists b',
             bridges st' = (bridges st ++ [b'])%list
             /\ (device b' ∉ active)).
Proof.
  destruct (stop_running_from w 0 (bridges st)) as (bs' & Hloop & Hdead).
  destruct c as [| | |n pin| | |].
  - unfold handle_choice, on_bridges, stop_running_bridges. unfold_eff.
    rewrite Hloop. simpl. do 3 eexists. split; [reflexivity |].
    split; [done |]. right. by left.
  - do 3 eexists. split; [reflexivity |]. split; [done |]. by left.
  - unfold handle_choice, stop_all, on_bridges, stop_running_bridges.
    unfold_eff. destruct (bool_decide (bridges st = [])).
    + do 3 eexists. split; [reflexivity |]. split; [done |]. by left.
    + rewrite Hloop. simpl. do 3 eexists. split; [reflexivity |].
      split; [done |]. right. left. constructor.
  - destruct (create_then_pause ws w active press_enter n pin st)
      as (o & -> & _).
    destruct (create_bridge_effect ws active n pin st)
      as (o0 & st' & t & -> & Hdevs & _ & Hcases). simpl.
    do 3 eexists. split; [reflexivity |]. split; [done |].
    destruct Hcases as [(-> & _) | (dev & p & b' & m & _ & Hfree & _ & Hs & Hb & _)].
    + by left.
    + right. right. exists b'. split; [done |].
      pose proof (start_keeps_identity ws
                    (Bridge_init (path dev) p (Some (node_name dev))))
        as (Hd & _).
      rewrite Hs in Hd. simpl in Hd. by rewrite Hd.
  - do 3 eexists. split; [reflexivity |]. split; [done |]. by left.
  - do 3 eexists. split; [reflexivity |]. split; [done |]. by left.
  - do 3 eexists. split; [reflexivity |]. split; [done |]. by left.
Qed.

Lemma no_devices_choice_effect (w : nat -> StopEnv) (c : Choice) (st : Menu) :
  exists o st' t,
    no_devices_choice w c st = (o, st', t)
    /\ devices st' = devices st
    /\ (bridges st' = bridges st
        \/ Forall (fun b => is_running b = false) (bridges st')).
Proof.
  destruct (stop_running_from w 0 (bridges st)) as (bs' & Hloop & Hdead).
  destruct c as [| | |n pin| | |];
    try (do 3 eexists; split; [reflexivity |]; split; [done |]; by left).
  unfold no_devices_choice, on_bridges, stop_running_bridges. unfold_eff.
  rewrite Hloop. simpl. do 3 eexists. split; [reflexivity |].
  split; [done |]. by right.
Qed.

Lemma scan_if_needed_returns (h : Host) (st : Menu) :
  (forall p, Qltb (t_last (probe_env h p) - start_time (probe_env h p))
                  (inject_Z 10) = false) ->
  exists st1,
    scan_if_needed h st = Some st1
    /\ bridges st1 = bridges st
    /\ need_scan st1 = false
    /\ (need_scan st = false -> st1 = st)
    /\ (need_scan st = true ->
        path <$> devices st1
        = path <$> enumerate_devices h (active_device_paths (bridges st))).
Proof.
  intros Hscripts. unfold scan_if_needed.
  destruct (need_scan st) eqn:Hneed.
  - destruct (find_serial_devices_paths h true
                (Some (active_device_paths (bridges st))) Hscripts)
      as (devs & -> & Hpaths).
    simpl. eexists. split; [reflexivity |]. simpl.
    split; [done |]. split; [done |]. split; [discriminate | done].
  - exists st. split; [done |]. split; [done |]. split; [done |].
    split; [done | discriminate].
Qed.

Lemma existing_bridge_none (bs : list Bridge) (p : string) :
  (forall b, b ∈ bs -> device b = p -> is_running b = false) ->
  existing_bridge p bs = None.
Proof.
  intros Hdead. unfold existing_bridge.
  destruct (filter _ bs) as [|b l] eqn:Hf; [done |].
  assert (Hb : b ∈ filter (fun b => device b = p /\ is_running b = true) bs)
    by (rewrite Hf; left).
  apply list_elem_of_filter in Hb as [[Hd Hr] Hin].
  rewrite (Hdead b Hin Hd) in Hr. discriminate.
Qed.

(** The create branch on a path that is in the set built before the
    prompt and on which no bridge is running any more. *)
Lemma create_bridge_stale (ws : StartEnv) (active : gset string) (n : N)
    (pin : PortInput) (st : Menu) (dev : SerialDevice) :
  (0 < n)%N ->
  devices st !! Z.to_nat (Z.of_N n - 1) = Some dev ->
  path dev ∈ active ->
  (forall b, b ∈ bridges st -> device b = path dev -> is_running b = false) ->
  create_bridge ws active n pin st = (Raise AttributeError, st, []).
Proof.
  intros Hn Hdev Hact Hdead.
  assert (Hrange : ((0 <=? Z.of_N n - 1)%Z
                    && (Z.of_N n - 1 <? Z.of_nat (length (devices st)))%Z)
                   = true).
  { apply lookup_lt_Some in Hdev. apply andb_true_iff. split.
    - apply Z.leb_le. lia.
    - apply Z.ltb_lt. lia. }
  unfold create_bridge. unfold_eff. rewrite Hrange, Hdev.
  destruct (decide _) as [_ | Hnot]; [| done].
  by rewrite (existing_bridge_none _ _ Hdead).
Qed.

(** X18.  Three ways a turn of the full menu lets an exception escape,
    each time with the menu state as it was and no external call made:
    EOFError when standard input has ended at the menu prompt; ValueError
    when the text typed passes [isdigit()] and [int()] rejects it;
    AttributeError when the path of the chosen device is in the set built
    before the prompt and no bridge on it is running any more when the
    choice is processed.  The last case is met on [mac_host]: after a turn
    that bridged the adapter, the subprocess ends while the menu waits and
    the user picks the adapter again. *)
Theorem handle_choice_raises (ws : StartEnv) (w : nat -> StopEnv)
    (active : gset string) (enter : outcome unit) (st : Menu) :
  handle_choice ws w active enter ChoiceEOF st = (Raise EOFError, st, [])
  /\ handle_choice ws w active enter ChoiceDigitsNotInt st
     = (Raise ValueError, st, [])
  /\ (forall n pin dev,
        (0 < n)%N ->
        devices st !! Z.to_nat (Z.of_N n - 1) = Some dev ->
        path dev ∈ active ->
        (forall b, b ∈ bridges st -> device b = path dev ->
                   is_running b = false) ->
        handle_choice ws w active enter (ChoiceDigits n pin) st
        = (Raise AttributeError, st, []))
  /\ main_turn mac_host env_ok (fun _ => stop_env_ok)
       {| exits_during_scan := []; exits_at_prompt := [(0%nat, 1)];
          press_enter := Ret tt |}
       (ChoiceDigits 1 PortBlank) menu_after_first_turn
     = Some (Raise AttributeError,
             after_exits [(0%nat, 1)] menu_after_first_turn, []).
Proof.
  split; [reflexivity |]. split; [reflexivity |]. split.
  - intros n pin dev Hn Hdev Hact Hdead.
    destruct (create_then_pause ws w active enter n pin st)
      as (o & -> & Ho).
    rewrite (create_bridge_stale ws active n pin st dev Hn Hdev Hact Hdead)
      in Ho |- *.
    simpl in Ho |- *.
    destruct Ho as [-> | (r & e & [=] & _)]. reflexivity.
  - vm_compute. reflexivity.
Qed.

Lemma not_active_not_in_live (bs : list Bridge) (p : string) :
  p ∉ active_device_paths bs ->
  p ∉ device <$> filter (fun b => is_running b = true) bs.
Proof.
  intros Hfree Hin. apply Hfree. unfold active_device_paths.
  by apply elem_of_list_to_set.
Qed.

(** A subprocess ending on its own only shortens the list of live
    bridges. *)
Lemma process_exits_live (code : Z) (i : nat) (bs : list Bridge) :
  sublist (device <$> filter (fun b => is_running b = true)
                             (alter (process_exits code) i bs))
          (device <$> filter (fun b => is_running b = true) bs).
Proof.
  revert i. induction bs as [|b bs IH]; intros i; [done |].
  destruct i as [|i]; simpl.
  - rewrite !filter_cons.
    assert (Hdead : is_running (process_exits code b) = false).
    { unfold process_exits, is_running.
      destruct (process b) eqn:Hp; simpl; [done | by rewrite Hp]. }
    rewrite (decide_False (P := is_running (process_exits code b) = true))
      by congruence.
    destruct (decide (is_running b = true)); [| done].
    rewrite fmap_cons. by apply sublist_cons.
  - rewrite !filter_cons.
    destruct (decide (is_running b = true)).
    + rewrite !fmap_cons. apply sublist_skip, IH.
    + apply IH.
Qed.

(** Subprocesses ending during a wait only shorten the list of live
    bridges. *)
Lemma exit_processes_live (exits : list (nat * Z)) (bs : list Bridge) :
  sublist (device <$> filter (fun b => is_running b = true)
                             (exit_processes exits bs))
          (device <$> filter (fun b => is_running b = true) bs).
Proof.
  unfold exit_processes. revert bs.
  induction exits as [|[i code] exits IH]; intros bs; simpl; [done |].
  etrans; [apply IH |]. apply process_exits_live.
Qed.

Lemma sublist_not_elem_of (l1 l2 : list string) (p : string) :
  sublist l1 l2 -> p ∉ l2 -> p ∉ l1.
Proof. intros Hsub Hnot Hin. apply Hnot. by eapply elem_of_sublist. Qed.

(** [main_turn] with its scan done. *)
Lemma main_turn_scanned (h : Host) (ws : StartEnv) (w : nat -> StopEnv)
    (m : Meanwhile) (c : Choice) (st st1 : Menu) :
  scan_if_needed h st = Some st1 ->
  main_turn h ws w m c st
  = Some (if bool_decide (devices st1 = []) then
            no_devices_choice w c
              (after_exits (exits_at_prompt m)
                 (after_exits (exits_during_scan m) st1))
          else
            handle_choice ws w
              (active_device_paths
                 (bridges (after_exits (exits_during_scan m) st1)))
              (press_enter m) c
              (after_exits (exits_at_prompt m)
                 (after_exits (exits_during_scan m) st1))).
Proof.
  intros Hscan. unfold main_turn. rewrite Hscan. simpl.
  by destruct (bool_decide (devices st1 = [])).
Qed.

(** X19.  In every state the menu loop can reach, whatever the hosts,
    the user's choices and the outside world's answers, and however
    subprocesses end in between, no two live bridges are on the same
    device path. *)
Theorem reachable_devices_exclusive (st : Menu) :
  reachable st ->
  NoDup (device <$> filter (fun b => is_running b = true) (bridges st)).
Proof.
  induction 1 as [|h ws w m c st st' r t _ IH Hturn|i code st _ IH].
  - constructor.
  - destruct (scan_if_needed h st) as [st1|] eqn:Hscan.
    2:{ unfold main_turn in Hturn. rewrite Hscan in Hturn. discriminate. }
    assert (Hb : bridges st1 = bridges st).
    { unfold scan_if_needed in Hscan. destruct (need_scan st).
      - destruct (find_serial_devices _ _ _); [| discriminate].
        by injection Hscan as <-.
      - by injection Hscan as <-. }
    rewrite (main_turn_scanned h ws w m c st st1 Hscan) in Hturn.
    rewrite <- Hb in IH.
    set (st2 := after_exits (exits_during_scan m) st1) in *.
    set (st3 := after_exits (exits_at_prompt m) st2) in *.
    assert (H2 : sublist
                   (device <$> filter (fun b => is_running b = true) (bridges st2))
                   (device <$> filter (fun b => is_running b = true) (bridges st1)))
      by apply exit_processes_live.
    assert (H3 : sublist
                   (device <$> filter (fun b => is_running b = true) (bridges st3))
                   (device <$> filter (fun b => is_running b = true) (bridges st2)))
      by apply exit_processes_live.
    assert (IH3 : NoDup (device <$> filter (fun b => is_running b = true)
                                           (bridges st3))).
    { eapply sublist_NoDup; [| exact H3]. eapply sublist_NoDup; [| exact H2].
      exact IH. }
    assert (Hcases : bridges st' = bridges st3
                     \/ Forall (fun b => is_running b = false) (bridges st')
                     \/ exists b',
                          bridges st' = (bridges st3 ++ [b'])%list
                          /\ (device b' ∉ active_device_paths (bridges st2))).
    { destruct (bool_decide (devices st1 = [])).
      - destruct (no_devices_choice_effect w c st3)
          as (r0 & st0 & t0 & Heq & _ & Hc).
        rewrite Heq in Hturn. injection Hturn as _ <- _.
        destruct Hc as [? | ?]; by eauto.
      - destruct (handle_choice_effect ws w
                    (active_device_paths (bridges st2)) (press_enter m) c st3)
          as (r0 & st0 & t0 & Heq & _ & Hc).
        rewrite Heq in Hturn. by injection Hturn as _ <- _. }
    destruct Hcases as [-> | [Hdead | (b' & -> & Hfree)]].
    + exact IH3.
    + rewrite (filter_running_none _ Hdead). constructor.
    + rewrite filter_app, fmap_app. apply NoDup_app. split; [exact IH3 |].
      split.
      * intros p Hp Hp'. rewrite filter_cons in Hp'.
        destruct (decide (is_running b' = true)); [| by inversion Hp'].
        apply list_elem_of_singleton in Hp' as ->.
        apply (sublist_not_elem_of _ _ _ H3
                 (not_active_not_in_live _ _ Hfree)).
        exact Hp.
      * rewrite filter_cons.
        destruct (decide (is_running b' = true)); [| constructor].
        apply NoDup_singleton.
  - simpl. exact (sublist_NoDup _ _ IH (process_exits_live code i _)).
Qed.

Lemma reachable_devices_exclusive_witness :
  NoDup (device <$> filter (fun b => is_running b = true)
                           (bridges menu_after_first_turn)).
Proof.
  apply (reachable_devices_exclusive menu_after_first_turn).
  eapply (reachable_turn mac_host env_ok (fun _ => stop_env_ok) uneventful
            (ChoiceDigits 1 PortBlank) initial_menu).
  - apply reachable_initial.
  - vm_compute. reflexivity.
Defined.

(** X20.  As long as the user leaves the port prompt blank, live bridges
    never share a port: if the live bridges hold distinct ports when the
    create branch runs with a blank port input, they still do afterwards,
    whatever set of paths was built before the prompt. *)
Theorem create_bridge_blank_port_fresh (ws : StartEnv) (active : gset string)
    (n : N) (st : Menu) :
  NoDup (port <$> filter (fun b => is_running b = true) (bridges st)) ->
  NoDup (port <$> filter (fun b => is_running b = true)
                         (bridges (create_bridge ws active n PortBlank st).1.2)).
Proof.
  intros Hdistinct.
  destruct (create_bridge_effect ws active n PortBlank st)
    as (r & st' & t & -> & _ & _ & Hcases). simpl.
  destruct Hcases as [(-> & _) | (dev & p & b' & m & _ & _ & Hpin & Hs & -> & _)];
    [done |].
  destruct Hpin as [[=] | [_ ->]].
  pose proof (start_keeps_identity ws
                (Bridge_init (path dev)
                   (get_next_available_port 4403 (bridges st))
                   (Some (node_name dev)))) as (_ & Hp & _).
  rewrite Hs in Hp. simpl in Hp.
  destruct (next_port_spec (used_ports (bridges st)) 4403) as (_ & Hfree & _).
  rewrite filter_app, fmap_app. apply NoDup_app. split; [done |]. split.
  - intros q Hq Hq'. rewrite filter_cons in Hq'.
    destruct (decide (is_running b' = true)); [| by inversion Hq'].
    apply list_elem_of_singleton in Hq' as ->.
    assert (Hin : port b' ∈ used_ports (bridges st)).
    { unfold used_ports. by apply elem_of_list_to_set. }
    rewrite Hp in Hin. exact (Hfree Hin).
  - rewrite filter_cons.
    destruct (decide (is_running b' = true)); [| constructor].
    apply NoDup_singleton.
Qed.

Lemma create_bridge_blank_port_fresh_witness :
  NoDup (port <$> filter (fun b => is_running b = true)
                         (bridges (create_bridge env_ok
                                     (active_device_paths (bridges menu_one_live))
                                     2 PortBlank menu_one_live).1.2)).
Proof.
  apply (create_bridge_blank_port_fresh env_ok
           (active_device_paths (bridges menu_one_live)) 2 menu_one_live).
  vm_compute. apply NoDup_singleton.
Defined.

(** X21.  A choice that is refused changes nothing: when a turn of the
    full menu reports an invalid option, an invalid device number, an
    invalid port number, or a bridge already running for the device, the
    menu state is exactly what it was and no external call was made,
    whatever set of paths was built before the prompt and whatever the
    pause prompt yields. *)
Theorem refused_choice_changes_nothing (ws : StartEnv) (w : nat -> StopEnv)
    (active : gset string) (enter : outcome unit) (c : Choice)
    (st st' : Menu) (r : Report) (t : list Event) :
  handle_choice ws w active enter c st = (Ret r, st', t) ->
  r = InvalidOption \/ r = InvalidDeviceNumber \/ r = InvalidPortNumber
  \/ (exists p, r = AlreadyRunning p) ->
  st' = st /\ t = [].
Proof.
  intros Hturn Hr.
  assert (Hnot : r <> FailedToStart /\ r <> Quit 0 /\ r <> Rescan
                 /\ r <> AllBridgesStopped).
  { destruct Hr as [-> | [-> | [-> | [p ->]]]]; by repeat split. }
  destruct Hnot as (Hfail & Hquit & Hrescan & Hstopped).
  destruct (stop_running_from w 0 (bridges st)) as (bs' & Hloop & _).
  destruct c as [| | |n pin| | |].
  - unfold handle_choice, on_bridges, stop_running_bridges in Hturn.
    unfold_eff. rewrite Hloop in Hturn. simpl in Hturn.
    injection Hturn as <- _ _. done.
  - injection Hturn as <- _ _. done.
  - unfold handle_choice, stop_all, on_bridges, stop_running_bridges in Hturn.
    unfold_eff. destruct (bool_decide (bridges st = [])).
    + by injection Hturn as _ <- <-.
    + rewrite Hloop in Hturn. simpl in Hturn. injection Hturn as <- _ _. done.
  - destruct (create_then_pause ws w active enter n pin st)
      as (o & Heq & Ho).
    rewrite Heq in Hturn. injection Hturn as -> <- <-.
    destruct Ho as [Ho | (r0 & e & _ & _ & [=])].
    destruct (create_bridge_effect ws active n pin st)
      as (o0 & st0 & t0 & Hcreate & _ & _ & Hcases).
    rewrite Hcreate in Ho |- *. simpl in Ho |- *. subst o0.
    destruct Hcases as [(-> & [-> | [= ->]] & _) | (dev & p & b' & m & H)];
      [done | done |].
    destruct H as (_ & _ & _ & _ & _ & [= ->] & _).
    destruct Hr as [[=] | [[=] | [[=] | [p' [=]]]]].
  - discriminate Hturn.
  - by injection Hturn as _ <- <-.
  - discriminate Hturn.
Qed.

Lemma refused_choice_changes_nothing_witness :
  menu_one_live = menu_one_live /\ @nil Event = [].
Proof.
  apply (refused_choice_changes_nothing env_ok (fun _ => stop_env_ok)
           (active_device_paths (bridges menu_one_live)) (Ret tt)
           (ChoiceDigits 1 (PortInt 5000)) menu_one_live menu_one_live
           (AlreadyRunning 4403) []).
  - reflexivity.
  - right. right. right. by exists 4403.
Defined.

(** X22.  Quitting from either menu and the signal handler run the same
    loop: they report exit code 0, make exactly the calls of [stop] on
    each running bridge, in list order, none for a bridge that is not
    running, and leave no bridge running. *)
Theorem quit_stops_running_bridges (ws : StartEnv) (w : nat -> StopEnv)
    (active : gset string) (enter : outcome unit) (st : Menu) :
  exists st',
    handle_choice ws w active enter ChoiceQ st
    = (Ret (Quit 0), st',
       concat (imap (fun j b => if is_running b then (stop (w j) b).2 else [])
                    (bridges st)))
    /\ no_devices_choice w ChoiceQ st
       = handle_choice ws w active enter ChoiceQ st
    /\ signal_handler w (bridges st)
       = (Ret 0, bridges st',
          concat (imap (fun j b => if is_running b then (stop (w j) b).2
                                   else [])
                       (bridges st)))
    /\ Forall (fun b => is_running b = false) (bridges st')
    /\ devices st' = devices st.
Proof.
  destruct (stop_running_from w 0 (bridges st)) as (bs' & Hloop & Hdead).
  exists (set_bridges bs' st).
  unfold handle_choice, no_devices_choice, signal_handler, on_bridges,
    stop_running_bridges.
  unfold_eff. rewrite Hloop. simpl. rewrite app_nil_r. done.
Qed.

(** X23.  On macOS, a scan that is due lists no device that a live bridge
    holds, leaves the bridges alone and clears the flag; a scan that is
    not due keeps the cached list, and the whole state, as it is. *)
Theorem scan_if_needed_darwin (h : Host) (st : Menu) :
  sys_platform h = "darwin" ->
  (forall p, Qltb (t_last (probe_env h p) - start_time (probe_env h p))
                  (inject_Z 10) = false) ->
  exists st1,
    scan_if_needed h st = Some st1
    /\ bridges st1 = bridges st
    /\ need_scan st1 = false
    /\ (need_scan st = false -> st1 = st)
    /\ (need_scan st = true ->
        forall d b,
          d ∈ devices st1 -> b ∈ bridges st1 -> is_running b = true ->
          device b <> path d).
Proof.
  intros Hplat Hscripts.
  destruct (scan_if_needed_returns h st Hscripts)
    as (st1 & Hscan & Hb & Hflag & Hcached & Hpaths).
  exists st1. repeat (split; [done |]).
  intros Hneed d b Hd Hin Hrun Heq.
  assert (Hp : path d ∈ path <$> devices st1)
    by (apply list_elem_of_fmap; eauto).
  rewrite (Hpaths Hneed) in Hp. apply list_elem_of_fmap in Hp as (d0 & Hd0 & Hin0).
  apply (enumerate_devices_darwin h _ d0 Hplat) in Hin0 as (Hskip & _).
  apply Hskip. rewrite <- Hd0. apply elem_of_active_device_paths.
  exists b. rewrite <- Hb. done.
Qed.

Lemma scan_if_needed_darwin_witness :
  exists st1,
    scan_if_needed mac_host
      {| bridges := [started_bridge]; devices := []; need_scan := true |}
    = Some st1
    /\ bridges st1 = [started_bridge]
    /\ need_scan st1 = false
    /\ (true = false ->
        st1 = {| bridges := [started_bridge]; devices := [];
                 need_scan := true |})
    /\ (true = true ->
        forall d b,
          d ∈ devices st1 -> b ∈ bridges st1 -> is_running b = true ->
          device b <> path d).
Proof.
  apply (scan_if_needed_darwin mac_host
           {| bridges := [started_bridge]; devices := []; need_scan := true |}).
  - reflexivity.
  - intros p. reflexivity.
Defined.

Lemma existing_bridge_appended (bs : list Bridge) (b' : Bridge) :
  device b' ∉ active_device_paths bs ->
  is_running b' = true ->
  existing_bridge (device b') (bs ++ [b'])%list = Some b'.
Proof.
  intros Hfree Hrun. unfold existing_bridge. rewrite filter_app.
  assert (Hnone : filter (fun b => device b = device b' /\ is_running b = true) bs
                  = []).
  { destruct (filter _ bs) as [|b l] eqn:Hf; [done |].
    assert (Hb : b ∈ filter (fun b => device b = device b'
                                      /\ is_running b = true) bs)
      by (rewrite Hf; left).
    apply list_elem_of_filter in Hb as [[Hd Hr] Hin].
    exfalso. apply Hfree, elem_of_active_device_paths. by eauto. }
  rewrite Hnone, filter_cons, decide_True by done. done.
Qed.

(** X24.  Once the create branch has started a bridge for a device and
    its subprocess is running, picking the same device again, with any
    port input and whatever the outside world would answer, is refused
    with the port of that bridge, and nothing is changed or called.  The
    set built before the first prompt holds at least the paths of the
    bridges that are live when the first choice is processed; the set
    built before the second prompt holds the path of the new bridge, as
    the one built from the state the first turn leaves does. *)
Theorem create_bridge_twice (ws ws2 : StartEnv) (active active2 : gset string)
    (n : N) (pin pin2 : PortInput) (st st' : Menu) (m : option string)
    (t : list Event) (hd : Popen) :
  active_device_paths (bridges st) ⊆ active ->
  create_bridge ws active n pin st = (Ret (BridgeStarted m), st', t) ->
  popen_result ws = Ret hd ->
  returncode hd = None ->
  exists b',
    bridges st' = (bridges st ++ [b'])%list
    /\ (pin = PortInt (port b')
        \/ (pin = PortBlank
            /\ port b' = get_next_available_port 4403 (bridges st)))
    /\ device b' ∈ active_device_paths (bridges st')
    /\ (device b' ∈ active2 ->
        create_bridge ws2 active2 n pin2 st'
        = (Ret (AlreadyRunning (port b')), st', [])).
Proof.
  intros Hstale Hcreate Hpopen Hlive.
  destruct (create_bridge_effect ws active n pin st)
    as (r0 & st0 & t0 & Heq & Hdevs & _ & Hcases).
  rewrite Heq in Hcreate. injection Hcreate as -> -> ->.
  destruct Hcases as [(_ & _ & Hnot) | (dev & p & b' & m' & Hdev & Hfree & Hpin
                                        & Hs & Hb & _ & Hlo)];
    [by destruct (Hnot m) |].
  pose proof (start_keeps_identity ws
                (Bridge_init (path dev) p (Some (node_name dev))))
    as (Hd & Hp & _).
  rewrite Hs in Hd, Hp. simpl in Hd, Hp.
  assert (Hrun : is_running b' = true).
  { destruct (start_cases ws) as [(h0 & Hstty & Hpopen') | Hfail].
    - destruct (start_spawned ws
                  (Bridge_init (path dev) p (Some (node_name dev)))
                  h0 Hstty Hpopen') as (b0 & t1 & Hs' & Hproc & _).
      rewrite Hs in Hs'. injection Hs' as <- _.
      unfold is_running. rewrite Hproc.
      rewrite Hpopen in Hpopen'. injection Hpopen' as <-. by rewrite Hlive.
    - destruct (start_not_spawned ws
                  (Bridge_init (path dev) p (Some (node_name dev))) Hfail)
        as (t1 & Hs' & _).
      rewrite Hs in Hs'. discriminate Hs'. }
  exists b'. split; [done |]. split.
  { rewrite Hp. destruct Hpin as [-> | [-> ->]]; by eauto. }
  split.
  { apply elem_of_active_device_paths. exists b'. split; [| done].
    rewrite Hb. apply elem_of_app. right. left. }
  intros Hact2.
  assert (Hrange : ((0 <=? Z.of_N n - 1)%Z
                    && (Z.of_N n - 1 <? Z.of_nat (length (devices st')))%Z)
                   = true).
  { rewrite Hdevs. apply lookup_lt_Some in Hdev.
    apply andb_true_iff. split; [apply Z.leb_le | apply Z.ltb_lt]; lia. }
  assert (Hfree' : device b' ∉ active_device_paths (bridges st)).
  { rewrite Hd. intros Hin. apply Hfree, Hstale, Hin. }
  unfold create_bridge. unfold_eff. rewrite Hrange, Hdevs, Hdev, Hb.
  rewrite <- Hd.
  destruct (decide (device b' ∈ active2)) as [_ | Hnot]; [| done].
  by rewrite (existing_bridge_appended _ _ Hfree' Hrun).
Qed.

Lemma create_bridge_twice_witness :
  exists b',
    bridges menu_after_first_turn = [b']
    /\ (PortBlank = PortInt (port b')
        \/ (PortBlank = PortBlank
            /\ port b' = get_next_available_port 4403 []))
    /\ device b' ∈ active_device_paths (bridges menu_after_first_turn)
    /\ (device b' ∈ active_device_paths (bridges menu_after_first_turn) ->
        create_bridge env_ok
          (active_device_paths (bridges menu_after_first_turn)) 1
          (PortInt 5000) menu_after_first_turn
        = (Ret (AlreadyRunning (port b')), menu_after_first_turn, [])).
Proof.
  apply (create_bridge_twice env_ok env_ok (active_device_paths [])
           (active_device_paths (bridges menu_after_first_turn))
           1 PortBlank (PortInt 5000)
           {| bridges := []; devices := devices menu_after_first_turn;
              need_scan := false |}
           menu_after_first_turn
           (Some "meshtastic_ice).local")
           (start env_ok (Bridge_init "/dev/cu.usbserial-0001" 4403
                            (Some "!3c7f9d4e (Alice)"))).2
           {| pid := 1; returncode := None |}).
  - done.
  - vm_compute. reflexivity.
  - reflexivity.
  - reflexivity.
Defined.
